(** * Traffic light controller: the Arduino sketch and the Verilog module

    Two implementations of one intersection controller live in the
    repository: [simulation/simulation.cpp] (polled, wall-clock
    milliseconds) and [src/Traffic_Controller.v] (clocked, a down-counting
    cycle timer).  Both are embedded below, each in a module of its own,
    with the names of the source. *)

From Stdlib Require Import String ZArith Bool List Lia.
Import ListNotations.
Open Scope Z_scope.

(* ================================================================== *)
(** ** The sketch: simulation/simulation.cpp *)
(* ================================================================== *)

Module Cpp.

(** Output pin numbers. *)
Definition LIGHT_NS_G_PIN : Z := 8.
Definition LIGHT_NS_Y_PIN : Z := 9.
Definition LIGHT_EW_G_PIN : Z := 10.
Definition LIGHT_EW_Y_PIN : Z := 11.

(** State durations, in milliseconds. *)
Definition NS_GREEN_MS : Z := 10000.
Definition EW_GREEN_MS : Z := 6000.
Definition YELLOW_MS : Z := 2000.
Definition EMERGENCY_WAIT_MS : Z := 500.
Definition INIT_MS : Z := 100.

(** [enum StateType]: the enumerators in declaration order.  A state is
    kept as the integer the enumeration stores, so that the [default]
    arms of the switches have something to catch. *)
Definition INIT : Z := 0.
Definition NS_GREEN : Z := 1.
Definition NS_YELLOW : Z := 2.
Definition EW_GREEN : Z := 3.
Definition EW_YELLOW : Z := 4.
Definition EMERGENCY_TRANS : Z := 5.
Definition EMERGENCY_GREEN : Z := 6.

(** [unsigned long] is 32 bits wide on the target; subtraction wraps. *)
Definition ULONG_MAX1 : Z := 2 ^ 32.
Definition ulong_sub (a b : Z) : Z := (a - b) mod ULONG_MAX1.

(** The four flags [readInputs] leaves in the globals. *)
Record Inputs : Set := mkInputs {
  reset_active : bool;
  emergency_active : bool;
  ns_sensor_active : bool;
  ew_sensor_active : bool
}.

(** Levels of the four lamp pins ([true] is HIGH). *)
Record Pins : Set := mkPins {
  ns_g : bool;
  ns_y : bool;
  ew_g : bool;
  ew_y : bool
}.

Definition LOW : bool := false.
Definition HIGH : bool := true.

Definition digitalWrite (pin : Z) (level : bool) (p : Pins) : Pins :=
  if pin =? LIGHT_NS_G_PIN then mkPins level (ns_y p) (ew_g p) (ew_y p)
  else if pin =? LIGHT_NS_Y_PIN then mkPins (ns_g p) level (ew_g p) (ew_y p)
  else if pin =? LIGHT_EW_G_PIN then mkPins (ns_g p) (ns_y p) level (ew_y p)
  else if pin =? LIGHT_EW_Y_PIN then mkPins (ns_g p) (ns_y p) (ew_g p) level
  else p.

(** [updateLights]: everything off, then the lamp of the state. *)
Definition updateLights (current_state : Z) (p : Pins) : Pins :=
  let p := digitalWrite LIGHT_NS_G_PIN LOW p in
  let p := digitalWrite LIGHT_NS_Y_PIN LOW p in
  let p := digitalWrite LIGHT_EW_G_PIN LOW p in
  let p := digitalWrite LIGHT_EW_Y_PIN LOW p in
  if (current_state =? NS_GREEN) || (current_state =? EMERGENCY_GREEN)
  then digitalWrite LIGHT_NS_G_PIN HIGH p
  else if current_state =? NS_YELLOW then digitalWrite LIGHT_NS_Y_PIN HIGH p
  else if current_state =? EW_GREEN then digitalWrite LIGHT_EW_G_PIN HIGH p
  else if (current_state =? EW_YELLOW) || (current_state =? EMERGENCY_TRANS)
  then digitalWrite LIGHT_EW_Y_PIN HIGH p
  else p.

(** Step 3 of [loop]: the value [next_state] holds when the two
    switches are through.  It starts as [current_state]. *)
Definition next_state (current_state elapsedTime : Z) (i : Inputs) : Z :=
  if emergency_active i then
    if (current_state =? NS_GREEN) || (current_state =? EMERGENCY_GREEN)
    then EMERGENCY_GREEN
    else if current_state =? EW_GREEN then EW_YELLOW
    else if current_state =? EW_YELLOW then
      if YELLOW_MS <=? elapsedTime then EMERGENCY_TRANS else EW_YELLOW
    else if current_state =? EMERGENCY_TRANS then
      if EMERGENCY_WAIT_MS <=? elapsedTime then EMERGENCY_GREEN
      else EMERGENCY_TRANS
    else if current_state =? NS_YELLOW then EMERGENCY_GREEN
    else EMERGENCY_GREEN
  else
    if current_state =? INIT then
      if INIT_MS <=? elapsedTime then NS_GREEN else current_state
    else if current_state =? NS_GREEN then
      if (NS_GREEN_MS <=? elapsedTime) && ew_sensor_active i
      then NS_YELLOW else current_state
    else if current_state =? NS_YELLOW then
      if YELLOW_MS <=? elapsedTime then EW_GREEN else current_state
    else if current_state =? EW_GREEN then
      if (EW_GREEN_MS <=? elapsedTime) && ns_sensor_active i
      then EW_YELLOW else current_state
    else if current_state =? EW_YELLOW then
      if YELLOW_MS <=? elapsedTime then NS_GREEN else current_state
    else if current_state =? EMERGENCY_TRANS then NS_GREEN
    else if current_state =? EMERGENCY_GREEN then NS_GREEN
    else INIT.

(** The globals that survive an iteration of [loop], and the lamp pins.
    The global [next_state] is assigned before it is read in every
    iteration, so it carries nothing across iterations. *)
Record Controller : Set := mkController {
  current_state : Z;
  stateStartTime : Z;
  pins : Pins
}.

(** One iteration of [loop].  [now] is what [millis()] returns in this
    iteration (it is called once on either path); [i] is what
    [readInputs] stored.  The [delay(500)] of the reset path only lets
    time pass. *)
Definition loop (now : Z) (i : Inputs) (c : Controller) : Controller :=
  if reset_active i then
    mkController INIT now (updateLights INIT (pins c))
  else
    let currentTime := now in
    let elapsedTime := ulong_sub currentTime (stateStartTime c) in
    let next := next_state (current_state c) elapsedTime i in
    if negb (next =? current_state c) then
      mkController next currentTime (updateLights next (pins c))
    else c.

(** Time spent in the current state, as [loop] computes it. *)
Definition elapsed (now : Z) (c : Controller) : Z :=
  ulong_sub now (stateStartTime c).

(** A run: the controller after each of a list of iterations. *)
Fixpoint run (ticks : list (Z * Inputs)) (c : Controller) : list Controller :=
  match ticks with
  | [] => []
  | (now, i) :: rest => let c' := loop now i c in c' :: run rest c'
  end.

(** Input pin numbers. *)
Definition RESET_PIN : Z := 2.
Definition EMERGENCY_PIN : Z := 3.
Definition SENSOR_NS1_PIN : Z := 4.
Definition SENSOR_NS2_PIN : Z := 5.
Definition SENSOR_EW1_PIN : Z := 6.
Definition SENSOR_EW2_PIN : Z := 7.

(** [readInputs]: [digitalRead] gives the level of an input pin at the
    time of the call; reset and emergency are active LOW, the sensors
    active HIGH and joined per approach. *)
Definition readInputs (digitalRead : Z -> bool) : Inputs :=
  mkInputs
    (Bool.eqb (digitalRead RESET_PIN) LOW)
    (Bool.eqb (digitalRead EMERGENCY_PIN) LOW)
    (Bool.eqb (digitalRead SENSOR_NS1_PIN) HIGH
     || Bool.eqb (digitalRead SENSOR_NS2_PIN) HIGH)
    (Bool.eqb (digitalRead SENSOR_EW1_PIN) HIGH
     || Bool.eqb (digitalRead SENSOR_EW2_PIN) HIGH).

(** [setup], as far as the controller goes: state [INIT], the clock
    started at what [millis()] returns, the lamps refreshed. *)
Definition setup (now : Z) (p : Pins) : Controller :=
  mkController INIT now (updateLights INIT p).

(** A whole iteration of [loop], from the pin levels it reads. *)
Definition loop_iteration (now : Z) (digitalRead : Z -> bool)
                          (c : Controller) : Controller :=
  loop now (readInputs digitalRead) c.

(** What goes to the serial port: [Serial.print] and [Serial.println]
    calls in the order they are made. *)
Inductive SerialOp : Set :=
| print (text : string)
| println (text : string).

(** [printStateName]: the text it prints for a state. *)
Definition printStateName (state : Z) : string :=
  if state =? INIT then "INIT"
  else if state =? NS_GREEN then "NS_GREEN"
  else if state =? NS_YELLOW then "NS_YELLOW"
  else if state =? EW_GREEN then "EW_GREEN"
  else if state =? EW_YELLOW then "EW_YELLOW"
  else if state =? EMERGENCY_TRANS then "EMERGENCY_TRANS"
  else if state =? EMERGENCY_GREEN then "EMERGENCY_GREEN"
  else "UNKNOWN".

(** The serial output of one iteration of [loop]: the reset notice, or
    the notice of the normal branch in the two emergency states followed
    by the state-change line when the state changes. *)
Definition loop_serial (now : Z) (i : Inputs) (c : Controller)
  : list SerialOp :=
  if reset_active i then [println "RESET Activated!"]
  else
    let elapsedTime := ulong_sub now (stateStartTime c) in
    let next := next_state (current_state c) elapsedTime i in
    (if emergency_active i then []
     else if current_state c =? EMERGENCY_TRANS
     then [println "Emergency ended during TRANS -> NS_GREEN"]
     else if current_state c =? EMERGENCY_GREEN
     then [println "Emergency ended -> NS_GREEN"]
     else [])
    ++
    (if negb (next =? current_state c) then
       [print "State Change: "; print (printStateName (current_state c));
        print " -> "; print (printStateName next); println ""]
     else []).

End Cpp.

(* ================================================================== *)
(** ** The hardware module: src/Traffic_Controller.v *)
(* ================================================================== *)

Module Verilog.

Definition NS_GREEN_CYCLES : Z := 100.
Definition EW_GREEN_CYCLES : Z := 60.
Definition YELLOW_CYCLES : Z := 20.
Definition EMERGENCY_WAIT : Z := 5.

(** State encodings, [3'b000] to [3'b110]. *)
Definition INIT : Z := 0.
Definition NS_GREEN : Z := 1.
Definition NS_YELLOW : Z := 2.
Definition EW_GREEN : Z := 3.
Definition EW_YELLOW : Z := 4.
Definition EMERGENCY_TRANS : Z := 5.
Definition EMERGENCY_GREEN : Z := 6.

(** [reg [7:0] state_timer]: assignments keep the low eight bits. *)
Definition reg8 (v : Z) : Z := v mod 256.

Definition ns_sensor_active (traffic_sensors : Z) : bool :=
  Z.testbit traffic_sensors 1 || Z.testbit traffic_sensors 0.
Definition ew_sensor_active (traffic_sensors : Z) : bool :=
  Z.testbit traffic_sensors 3 || Z.testbit traffic_sensors 2.

(** The combinational next-state block. *)
Definition next_state (current_state state_timer : Z) (emergency : bool)
                      (traffic_sensors : Z) : Z :=
  if emergency then
    if (current_state =? NS_GREEN) || (current_state =? EMERGENCY_GREEN)
    then EMERGENCY_GREEN
    else if current_state =? EW_GREEN then EW_YELLOW
    else if current_state =? EW_YELLOW then EMERGENCY_TRANS
    else if current_state =? NS_YELLOW then EMERGENCY_GREEN
    else if current_state =? EMERGENCY_TRANS then EMERGENCY_GREEN
    else if current_state =? INIT then EMERGENCY_GREEN
    else EMERGENCY_GREEN
  else
    if current_state =? INIT then NS_GREEN
    else if current_state =? NS_GREEN then
      if (state_timer =? 0) && ew_sensor_active traffic_sensors
      then NS_YELLOW else current_state
    else if current_state =? NS_YELLOW then
      if state_timer =? 0 then EW_GREEN else current_state
    else if current_state =? EW_GREEN then
      if (state_timer =? 0) && ns_sensor_active traffic_sensors
      then EW_YELLOW else current_state
    else if current_state =? EW_YELLOW then
      if state_timer =? 0 then NS_GREEN else current_state
    else if current_state =? EMERGENCY_TRANS then
      if state_timer =? 0 then NS_GREEN else current_state
    else if current_state =? EMERGENCY_GREEN then NS_GREEN
    else INIT.

(** The combinational output block; bit 0 is NS green, bit 1 NS yellow,
    bit 2 EW green, bit 3 EW yellow. *)
Definition light (current_state : Z) : Z :=
  if current_state =? NS_GREEN then 1
  else if current_state =? NS_YELLOW then 2
  else if current_state =? EW_GREEN then 4
  else if current_state =? EW_YELLOW then 8
  else if current_state =? EMERGENCY_TRANS then 8
  else if current_state =? EMERGENCY_GREEN then 1
  else if current_state =? INIT then 0
  else 0.

Record Regs : Set := mkRegs {
  current_state : Z;
  state_timer : Z
}.

(** The value loaded into the timer when [next_state] is entered. *)
Definition timer_load (next : Z) : Z :=
  if next =? NS_GREEN then reg8 (NS_GREEN_CYCLES - 1)
  else if next =? EW_GREEN then reg8 (EW_GREEN_CYCLES - 1)
  else if next =? NS_YELLOW then reg8 (YELLOW_CYCLES - 1)
  else if next =? EW_YELLOW then reg8 (YELLOW_CYCLES - 1)
  else if next =? EMERGENCY_TRANS then reg8 (EMERGENCY_WAIT - 1)
  else if next =? EMERGENCY_GREEN then 1
  else if next =? INIT then 1
  else 1.

(** The clocked block, at an edge of [clk] or of [reset]. *)
Definition posedge (reset emergency : bool) (traffic_sensors : Z)
                   (r : Regs) : Regs :=
  if reset then mkRegs INIT 0
  else
    let next :=
      next_state (current_state r) (state_timer r) emergency traffic_sensors in
    if negb (next =? current_state r) then mkRegs next (timer_load next)
    else if negb (state_timer r =? 0)
    then mkRegs next (reg8 (state_timer r - 1))
    else mkRegs next (state_timer r).

(** Successive clock edges with [reset] and [emergency] held, the
    sensor bus sampled anew at each edge. *)
Fixpoint edges (reset emergency : bool) (sensors : list Z) (r : Regs)
  : list Regs :=
  match sensors with
  | [] => []
  | x :: rest =>
      let r' := posedge reset emergency x r in
      r' :: edges reset emergency rest r'
  end.

End Verilog.

(* ================================================================== *)
(** ** Vocabulary of the properties *)
(* ================================================================== *)

(** Membership in the seven-value enumeration (the encodings of the two
    implementations coincide). *)
Definition enumerated (s : Z) : bool := (0 <=? s) && (s <=? 6).

Definition all_off : Cpp.Pins := Cpp.mkPins false false false false.

(** "At most one of the two lamps is lit." *)
Definition at_most_one (a b : bool) : Prop := a && b = false.

(** The durations table of the data model, with the constants of the
    sketch; a state without a configured dwell gets 0. *)
Definition configured_dwell (s : Z) : Z :=
  if s =? Cpp.INIT then Cpp.INIT_MS
  else if s =? Cpp.NS_GREEN then Cpp.NS_GREEN_MS
  else if s =? Cpp.EW_GREEN then Cpp.EW_GREEN_MS
  else if s =? Cpp.NS_YELLOW then Cpp.YELLOW_MS
  else if s =? Cpp.EW_YELLOW then Cpp.YELLOW_MS
  else if s =? Cpp.EMERGENCY_TRANS then Cpp.EMERGENCY_WAIT_MS
  else 0.

(** The (state, branch) pairs in which the sketch compares the elapsed
    time with the dwell of the state before it leaves the state. *)
Definition dwell_gated (s : Z) (emergency : bool) : bool :=
  if emergency
  then (s =? Cpp.EW_YELLOW) || (s =? Cpp.EMERGENCY_TRANS)
  else (s =? Cpp.INIT) || (s =? Cpp.NS_GREEN) || (s =? Cpp.NS_YELLOW)
       || (s =? Cpp.EW_GREEN) || (s =? Cpp.EW_YELLOW).

(** The states for which the hardware module has a duration parameter. *)
Definition timed (s : Z) : bool :=
  (s =? Cpp.NS_GREEN) || (s =? Cpp.NS_YELLOW) || (s =? Cpp.EW_GREEN)
  || (s =? Cpp.EW_YELLOW) || (s =? Cpp.EMERGENCY_TRANS).

(** The two clocks tell the same thing about state [s]: in a timed state
    the cycle timer has run down exactly when the elapsed milliseconds
    have reached the dwell of [s]. *)
Definition timers_agree (s elapsedTime state_timer : Z) : Prop :=
  if timed s
  then (state_timer =? 0) = (configured_dwell s <=? elapsedTime)
  else True.

(** The sensor bus carries the demand flags of the input sample. *)
Definition sensors_agree (i : Cpp.Inputs) (traffic_sensors : Z) : Prop :=
  Cpp.ns_sensor_active i = Verilog.ns_sensor_active traffic_sensors /\
  Cpp.ew_sensor_active i = Verilog.ew_sensor_active traffic_sensors.

(** The (state, branch, elapsed) triples on which the two transition
    functions decide alike.  They part only before the dwell of the state
    is over, and only in four places: [EW_YELLOW] and [EMERGENCY_TRANS]
    in the emergency branch (the sketch waits, the hardware module does
    not), [EMERGENCY_TRANS] in the normal branch (the hardware module
    waits, the sketch does not) and [INIT] in the normal branch (the
    sketch waits [INIT_MS], the hardware module does not). *)
Definition same_decision (s elapsedTime : Z) (emergency : bool) : bool :=
  if emergency
  then negb ((s =? Cpp.EW_YELLOW) || (s =? Cpp.EMERGENCY_TRANS))
       || (configured_dwell s <=? elapsedTime)
  else negb ((s =? Cpp.EMERGENCY_TRANS) || (s =? Cpp.INIT))
       || (configured_dwell s <=? elapsedTime).

(** Position of a state on the emergency path out of [EW_GREEN]. *)
Definition path_rank (s : Z) : Z :=
  if s =? Cpp.EW_GREEN then 0
  else if s =? Cpp.EW_YELLOW then 1
  else if s =? Cpp.EMERGENCY_TRANS then 2
  else if s =? Cpp.EMERGENCY_GREEN then 3
  else 4.

(** Every iteration of a list has the emergency flag up and reset down. *)
Definition emergency_held (ticks : list (Z * Cpp.Inputs)) : Prop :=
  Forall (fun t => Cpp.reset_active (snd t) = false /\
                   Cpp.emergency_active (snd t) = true) ticks.

(** One clock cycle of the hardware module stands for 100 ms of the
    sketch: this sends each cycle count to its millisecond constant. *)
Definition cycles_to_ms (cycles : Z) : Z := 100 * cycles.

(** What one tick shows to the two drivers: the milliseconds elapsed in
    the current state (sketch), the content of the cycle timer (hardware
    module), the four flags, and the sensor bus. *)
Record Sample : Set := mkSample {
  elapsedTime : Z;
  state_timer : Z;
  inputs : Cpp.Inputs;
  traffic_sensors : Z
}.

(** The states each transition function goes through from [s], fed the
    samples one per tick. *)
Fixpoint cpp_sequence (s : Z) (l : list Sample) : list Z :=
  match l with
  | [] => []
  | x :: rest =>
      let s' := Cpp.next_state s (elapsedTime x) (inputs x) in
      s' :: cpp_sequence s' rest
  end.

Fixpoint verilog_sequence (s : Z) (l : list Sample) : list Z :=
  match l with
  | [] => []
  | x :: rest =>
      let s' := Verilog.next_state s (state_timer x)
                  (Cpp.emergency_active (inputs x)) (traffic_sensors x) in
      s' :: verilog_sequence s' rest
  end.

(** At every tick of the run from [s] the two clocks and the two views of
    the sensors agree. *)
Fixpoint identified (s : Z) (l : list Sample) : Prop :=
  match l with
  | [] => True
  | x :: rest =>
      timers_agree s (elapsedTime x) (state_timer x) /\
      sensors_agree (inputs x) (traffic_sensors x) /\
      identified (Cpp.next_state s (elapsedTime x) (inputs x)) rest
  end.

(** Every tick of the run from [s] is taken where [same_decision] holds. *)
Fixpoint in_common_part (s : Z) (l : list Sample) : Prop :=
  match l with
  | [] => True
  | x :: rest =>
      same_decision s (elapsedTime x) (Cpp.emergency_active (inputs x)) = true /\
      in_common_part (Cpp.next_state s (elapsedTime x) (inputs x)) rest
  end.

(** A sample taken in [EMERGENCY_TRANS]: all flags down, no time elapsed,
    the timer still at [EMERGENCY_WAIT - 1]. *)
Definition sample_in_trans : Sample :=
  mkSample 0 4 (Cpp.mkInputs false false false false) 0.

(** Six samples from [NS_GREEN]: the green is over and east-west waits;
    the yellow is over; the emergency flag comes up in [EW_GREEN]; the
    yellow is over with the flag up; the wait of [EMERGENCY_TRANS] is
    over with the flag up; the flag is down again. *)
Definition samples_round_trip : list Sample :=
  [ mkSample 10000 0 (Cpp.mkInputs false false false true) 4;
    mkSample 2000 0 (Cpp.mkInputs false false false false) 0;
    mkSample 0 59 (Cpp.mkInputs false true false false) 0;
    mkSample 2000 0 (Cpp.mkInputs false true false false) 0;
    mkSample 500 0 (Cpp.mkInputs false true false false) 0;
    mkSample 0 1 (Cpp.mkInputs false false false false) 0 ].

(** Successive values differ by zero or one, starting from [r]. *)
Fixpoint steps_by_one (r : Z) (l : list Z) : Prop :=
  match l with
  | [] => True
  | x :: rest => (x = r \/ x = r + 1) /\ steps_by_one x rest
  end.

(** Number of lamps lit, on the pins of the sketch and on the [light] bus
    of the hardware module. *)
Definition lit (b : bool) : Z := if b then 1 else 0.

Definition lamps_lit (p : Cpp.Pins) : Z :=
  lit (Cpp.ns_g p) + lit (Cpp.ns_y p) + lit (Cpp.ew_g p) + lit (Cpp.ew_y p).

Definition bits_lit (light : Z) : Z :=
  lit (Z.testbit light 0) + lit (Z.testbit light 1)
  + lit (Z.testbit light 2) + lit (Z.testbit light 3).

(** The [light] bus read as the four lamp pins: bit 0 NS green, bit 1 NS
    yellow, bit 2 EW green, bit 3 EW yellow. *)
Definition pins_of_light (light : Z) : Cpp.Pins :=
  Cpp.mkPins (Z.testbit light 0) (Z.testbit light 1)
             (Z.testbit light 2) (Z.testbit light 3).

(** The lamps show the state of the controller. *)
Definition lamps_follow_state (c : Cpp.Controller) : Prop :=
  Cpp.pins c = Cpp.updateLights (Cpp.current_state c) all_off.

(** The sensor pins of the sketch laid out on the sensor bus of the
    hardware module: [3] EW2, [2] EW1, [1] NS2, [0] NS1. *)
Definition sensor_bus (digitalRead : Z -> bool) : Z :=
  lit (digitalRead Cpp.SENSOR_NS1_PIN)
  + 2 * lit (digitalRead Cpp.SENSOR_NS2_PIN)
  + 4 * lit (digitalRead Cpp.SENSOR_EW1_PIN)
  + 8 * lit (digitalRead Cpp.SENSOR_EW2_PIN).

(** Every sample has the emergency flag up and at least [YELLOW_MS]
    elapsed. *)
Definition emergency_and_patient (l : list Sample) : Prop :=
  Forall (fun x => Cpp.emergency_active (inputs x) = true /\
                   Cpp.YELLOW_MS <= elapsedTime x) l.

(** How many more states the emergency branch of the sketch goes through
    from [s] before [EMERGENCY_GREEN]. *)
Definition to_go (s : Z) : Z :=
  if s =? Cpp.EMERGENCY_GREEN then 0
  else if s =? Cpp.EW_GREEN then 3
  else if s =? Cpp.EW_YELLOW then 2
  else 1.

(** Every iteration of a list has reset, emergency and east-west demand
    down. *)
Definition no_cross_demand (ticks : list (Z * Cpp.Inputs)) : Prop :=
  Forall (fun t => Cpp.reset_active (snd t) = false /\
                   Cpp.emergency_active (snd t) = false /\
                   Cpp.ew_sensor_active (snd t) = false) ticks.

(* ================================================================== *)
(** ** Proof support *)
(* ================================================================== *)

(** Case analysis along a chain of comparisons of [s] with constants,
    the way a [switch] on [s] is read. *)
Ltac switch_on s :=
  repeat match goal with
         | |- context [Z.eqb s ?k] => destruct (Z.eqb_spec s k) as [->|?]
         end.

Ltac constants :=
  unfold Cpp.INIT, Cpp.NS_GREEN, Cpp.NS_YELLOW, Cpp.EW_GREEN, Cpp.EW_YELLOW,
    Cpp.EMERGENCY_TRANS, Cpp.EMERGENCY_GREEN, Cpp.NS_GREEN_MS, Cpp.EW_GREEN_MS,
    Cpp.YELLOW_MS, Cpp.EMERGENCY_WAIT_MS, Cpp.INIT_MS,
    Verilog.INIT, Verilog.NS_GREEN, Verilog.NS_YELLOW, Verilog.EW_GREEN,
    Verilog.EW_YELLOW, Verilog.EMERGENCY_TRANS, Verilog.EMERGENCY_GREEN in *.

Lemma ulong_sub_diag : forall a, Cpp.ulong_sub a a = 0.
Proof.
  intros a. unfold Cpp.ulong_sub. rewrite Z.sub_diag. reflexivity.
Qed.

Lemma not_enumerated : forall s,
  enumerated s = false -> s < 0 \/ 6 < s.
Proof.
  intros s H. unfold enumerated in H.
  apply andb_false_iff in H. destruct H as [H|H].
  - left. apply Z.leb_gt in H. exact H.
  - right. apply Z.leb_gt in H. exact H.
Qed.

(* ================================================================== *)
(** ** The output mapper *)
(* ================================================================== *)

Lemma updateLights_cases : forall s p,
  Cpp.updateLights s p =
    if (s =? Cpp.NS_GREEN) || (s =? Cpp.EMERGENCY_GREEN)
    then Cpp.mkPins true false false false
    else if s =? Cpp.NS_YELLOW then Cpp.mkPins false true false false
    else if s =? Cpp.EW_GREEN then Cpp.mkPins false false true false
    else if (s =? Cpp.EW_YELLOW) || (s =? Cpp.EMERGENCY_TRANS)
    then Cpp.mkPins false false false true
    else all_off.
Proof.
  intros s p. unfold Cpp.updateLights.
  repeat match goal with
         | |- context [if ?b then _ else _] =>
             lazymatch b with
             | context [s] => destruct b
             end
         end; reflexivity.
Qed.

Lemma updateLights_idempotent : forall s p q,
  Cpp.updateLights s p = Cpp.updateLights s q.
Proof.
  intros s p q. now rewrite !updateLights_cases.
Qed.

(** C1. Whatever integer the state holds, the lamps the output mapper
    lights never include both greens nor both yellows, in the sketch
    ([updateLights]) and in the hardware module ([light]); [INIT] lights
    none. *)
Theorem output_mutual_exclusion : forall (s : Z) (p : Cpp.Pins),
  (at_most_one (Cpp.ns_g (Cpp.updateLights s p))
               (Cpp.ew_g (Cpp.updateLights s p)) /\
   at_most_one (Cpp.ns_y (Cpp.updateLights s p))
               (Cpp.ew_y (Cpp.updateLights s p))) /\
  Cpp.updateLights Cpp.INIT p = all_off /\
  (at_most_one (Z.testbit (Verilog.light s) 0)
               (Z.testbit (Verilog.light s) 2) /\
   at_most_one (Z.testbit (Verilog.light s) 1)
               (Z.testbit (Verilog.light s) 3)) /\
  Verilog.light Verilog.INIT = 0.
Proof.
  intros s p. unfold at_most_one.
  split; [split | split; [| split; [split |]]].
  - rewrite updateLights_cases. switch_on s; reflexivity.
  - rewrite updateLights_cases. switch_on s; reflexivity.
  - rewrite updateLights_cases. reflexivity.
  - unfold Verilog.light. switch_on s; reflexivity.
  - unfold Verilog.light. switch_on s; reflexivity.
  - reflexivity.
Qed.

(* ================================================================== *)
(** ** States outside the enumeration *)
(* ================================================================== *)

(** C2, as stated, fails: with the emergency flag up, the integer 7 (not
    an enumerator) is sent to [EMERGENCY_GREEN] by the [default] arm of the
    emergency switch, not to [INIT]. *)
Lemma unknown_state_emergency_not_init :
  enumerated 7 = false /\
  Cpp.next_state 7 0 (Cpp.mkInputs false true false false)
    = Cpp.EMERGENCY_GREEN /\
  Cpp.next_state 7 0 (Cpp.mkInputs false true false false) <> Cpp.INIT /\
  Verilog.next_state 7 0 true 0 <> Verilog.INIT.
Proof.
  repeat split; vm_compute; discriminate.
Qed.

(** C2, amended. For a state outside the enumeration the output mapper
    turns every lamp off; the transition function returns [INIT] when the
    emergency flag is down and [EMERGENCY_GREEN] when it is up, for every
    elapsed time and every demand flag, in both implementations. *)
Theorem unknown_state_fail_safe : forall s : Z,
  enumerated s = false ->
  (forall p, Cpp.updateLights s p = all_off) /\
  Verilog.light s = 0 /\
  (forall elapsed r ns ew,
     Cpp.next_state s elapsed (Cpp.mkInputs r false ns ew) = Cpp.INIT) /\
  (forall timer sensors,
     Verilog.next_state s timer false sensors = Verilog.INIT) /\
  (forall elapsed r ns ew,
     Cpp.next_state s elapsed (Cpp.mkInputs r true ns ew)
       = Cpp.EMERGENCY_GREEN) /\
  (forall timer sensors,
     Verilog.next_state s timer true sensors = Verilog.EMERGENCY_GREEN).
Proof.
  intros s H. apply not_enumerated in H.
  split; [| split; [| split; [| split; [| split]]]]; intros.
  - rewrite updateLights_cases. switch_on s; constants; try lia; reflexivity.
  - unfold Verilog.light. switch_on s; constants; try lia; reflexivity.
  - unfold Cpp.next_state; cbn [Cpp.emergency_active].
    switch_on s; constants; try lia; reflexivity.
  - unfold Verilog.next_state.
    switch_on s; constants; try lia; reflexivity.
  - unfold Cpp.next_state; cbn [Cpp.emergency_active].
    switch_on s; constants; try lia; reflexivity.
  - unfold Verilog.next_state.
    switch_on s; constants; try lia; reflexivity.
Qed.

Lemma unknown_state_fail_safe_witness :
  enumerated 7 = false /\
  Cpp.next_state 7 12345 (Cpp.mkInputs false false true true) = Cpp.INIT /\
  Cpp.updateLights 7 (Cpp.mkPins true true true true) = all_off.
Proof.
  split; [reflexivity |].
  destruct (unknown_state_fail_safe 7) as (Hl & _ & Hn & _);
    [reflexivity |].
  split; [apply Hn | apply Hl].
Defined.

(** C10. With the emergency flag up and reset down, [INIT] and every
    integer outside the enumeration go to [EMERGENCY_GREEN] at the next
    tick, whatever the elapsed time, the timer and the demand flags, in the
    sketch and in the hardware module. *)
Theorem emergency_from_init_or_unknown : forall s : Z,
  enumerated s = false \/ s = Cpp.INIT ->
  forall elapsed ns ew timer sensors now start p,
    Cpp.next_state s elapsed (Cpp.mkInputs false true ns ew)
      = Cpp.EMERGENCY_GREEN /\
    Cpp.current_state
      (Cpp.loop now (Cpp.mkInputs false true ns ew)
         (Cpp.mkController s start p)) = Cpp.EMERGENCY_GREEN /\
    Verilog.next_state s timer true sensors = Verilog.EMERGENCY_GREEN /\
    Verilog.current_state
      (Verilog.posedge false true sensors (Verilog.mkRegs s timer))
      = Verilog.EMERGENCY_GREEN.
Proof.
  intros s Hs elapsed ns ew timer sensors now start p.
  assert (Hc : forall e, Cpp.next_state s e (Cpp.mkInputs false true ns ew)
                         = Cpp.EMERGENCY_GREEN).
  { intros e. destruct Hs as [Hs | ->]; [| reflexivity].
    apply not_enumerated in Hs.
    unfold Cpp.next_state; cbn [Cpp.emergency_active].
    switch_on s; constants; try lia; reflexivity. }
  assert (Hv : Verilog.next_state s timer true sensors
               = Verilog.EMERGENCY_GREEN).
  { destruct Hs as [Hs | ->]; [| reflexivity].
    apply not_enumerated in Hs. unfold Verilog.next_state.
    switch_on s; constants; try lia; reflexivity. }
  split; [apply Hc | split; [| split; [exact Hv |]]].
  - unfold Cpp.loop; cbn [Cpp.reset_active Cpp.current_state Cpp.stateStartTime].
    rewrite Hc.
    destruct (negb (Cpp.EMERGENCY_GREEN =? s)) eqn:E; cbn [Cpp.current_state].
    + reflexivity.
    + apply negb_false_iff, Z.eqb_eq in E. symmetry. exact E.
  - unfold Verilog.posedge;
      cbn [Verilog.current_state Verilog.state_timer].
    rewrite Hv.
    destruct (negb (Verilog.EMERGENCY_GREEN =? s));
      [| destruct (negb (timer =? 0))]; reflexivity.
Qed.

Lemma emergency_from_init_or_unknown_witness :
  (enumerated 9 = false \/ 9 = Cpp.INIT) /\
  Cpp.current_state
    (Cpp.loop 40 (Cpp.mkInputs false true false true)
       (Cpp.mkController 9 0 all_off)) = Cpp.EMERGENCY_GREEN.
Proof.
  split; [left; reflexivity |].
  apply (emergency_from_init_or_unknown 9 (or_introl eq_refl)
           0 false true 0 0 40 0 all_off).
Defined.

(* ================================================================== *)
(** ** Reset *)
(* ================================================================== *)

(** C5. An iteration with the reset flag up leaves the controller in
    [INIT] with no time elapsed in it, whatever the state, the start time
    and the other three flags were; the hardware module ends in [INIT]
    with its timer at zero. *)
Theorem reset_dominance :
  forall (now : Z) (em ns ew : bool) (c : Cpp.Controller)
         (sensors : Z) (r : Verilog.Regs),
    Cpp.current_state (Cpp.loop now (Cpp.mkInputs true em ns ew) c)
      = Cpp.INIT /\
    Cpp.elapsed now (Cpp.loop now (Cpp.mkInputs true em ns ew) c) = 0 /\
    Cpp.pins (Cpp.loop now (Cpp.mkInputs true em ns ew) c) = all_off /\
    Verilog.posedge true em sensors r = Verilog.mkRegs Verilog.INIT 0.
Proof.
  intros. unfold Cpp.loop, Cpp.elapsed; cbn [Cpp.reset_active
    Cpp.current_state Cpp.stateStartTime Cpp.pins].
  split; [reflexivity | split; [apply ulong_sub_diag | split]].
  - rewrite updateLights_cases. reflexivity.
  - reflexivity.
Qed.

(* ================================================================== *)
(** ** The normal branch *)
(* ================================================================== *)

Lemma loop_no_reset_state : forall now em ns ew s start p,
  Cpp.current_state
    (Cpp.loop now (Cpp.mkInputs false em ns ew) (Cpp.mkController s start p))
  = Cpp.next_state s (Cpp.ulong_sub now start) (Cpp.mkInputs false em ns ew).
Proof.
  intros. unfold Cpp.loop;
    cbn [Cpp.reset_active Cpp.current_state Cpp.stateStartTime].
  destruct (negb (_ =? s)) eqn:E; cbn [Cpp.current_state]; [reflexivity |].
  apply negb_false_iff, Z.eqb_eq in E. symmetry. exact E.
Qed.

Lemma next_state_ns_green : forall elapsed r ns ew,
  Cpp.next_state Cpp.NS_GREEN elapsed (Cpp.mkInputs r false ns ew)
  = if (Cpp.NS_GREEN_MS <=? elapsed) && ew
    then Cpp.NS_YELLOW else Cpp.NS_GREEN.
Proof. reflexivity. Qed.

(** C6. In [NS_GREEN], reset and emergency down: without east-west demand
    the next state is [NS_GREEN] whatever the elapsed time; the next state
    is [NS_YELLOW] exactly when the elapsed time has reached
    [NS_GREEN_MS] and east-west demand is present. The last part says
    the same of one iteration of [loop]. *)
Theorem ns_green_demand_gating :
  forall (elapsed : Z) (ns ew : bool) (now start : Z) (p : Cpp.Pins),
    Cpp.next_state Cpp.NS_GREEN elapsed (Cpp.mkInputs false false ns false)
      = Cpp.NS_GREEN /\
    (Cpp.next_state Cpp.NS_GREEN elapsed (Cpp.mkInputs false false ns ew)
       = Cpp.NS_YELLOW
     <-> Cpp.NS_GREEN_MS <= elapsed /\ ew = true) /\
    Cpp.current_state
      (Cpp.loop now (Cpp.mkInputs false false ns ew)
         (Cpp.mkController Cpp.NS_GREEN start p))
      = (if (Cpp.NS_GREEN_MS <=? Cpp.ulong_sub now start) && ew
         then Cpp.NS_YELLOW else Cpp.NS_GREEN).
Proof.
  intros. split; [| split].
  - rewrite next_state_ns_green, andb_false_r. reflexivity.
  - rewrite next_state_ns_green.
    destruct (Z.leb_spec Cpp.NS_GREEN_MS elapsed) as [Hle | Hlt];
      destruct ew; cbn [andb]; split;
      try discriminate; try (intros [? ?]; try discriminate; lia);
      intros; split; auto.
  - rewrite loop_no_reset_state. apply next_state_ns_green.
Qed.

(** The hardware module gates [NS_GREEN] in the same way, on its timer. *)
Lemma verilog_ns_green_demand_gating : forall timer sensors,
  Verilog.next_state Verilog.NS_GREEN timer false sensors
  = if (timer =? 0) && Verilog.ew_sensor_active sensors
    then Verilog.NS_YELLOW else Verilog.NS_GREEN.
Proof. reflexivity. Qed.

(** C8. With reset and emergency down, a tick taken in [EMERGENCY_GREEN]
    goes straight to [NS_GREEN], for every elapsed time and every demand
    flag, and so does a tick taken in [EMERGENCY_TRANS]; the lamps after
    the tick are those of [NS_GREEN], no yellow in between. *)
Theorem emergency_resume :
  forall (elapsed : Z) (ns ew : bool) (now start : Z) (p : Cpp.Pins),
    Cpp.next_state Cpp.EMERGENCY_GREEN elapsed
      (Cpp.mkInputs false false ns ew) = Cpp.NS_GREEN /\
    Cpp.next_state Cpp.EMERGENCY_TRANS elapsed
      (Cpp.mkInputs false false ns ew) = Cpp.NS_GREEN /\
    Cpp.loop now (Cpp.mkInputs false false ns ew)
      (Cpp.mkController Cpp.EMERGENCY_GREEN start p)
      = Cpp.mkController Cpp.NS_GREEN now
          (Cpp.mkPins true false false false) /\
    Cpp.loop now (Cpp.mkInputs false false ns ew)
      (Cpp.mkController Cpp.EMERGENCY_TRANS start p)
      = Cpp.mkController Cpp.NS_GREEN now
          (Cpp.mkPins true false false false).
Proof.
  intros. repeat split.
Qed.

(** The hardware module leaves [EMERGENCY_GREEN] for [NS_GREEN] in the
    same way. *)
Lemma verilog_emergency_green_resume : forall timer sensors,
  Verilog.next_state Verilog.EMERGENCY_GREEN timer false sensors
  = Verilog.NS_GREEN.
Proof. reflexivity. Qed.

(** C9, as stated, fails on the sketch: in [EMERGENCY_TRANS] with no time
    elapsed (less than [EMERGENCY_WAIT_MS]) the normal branch already
    answers [NS_GREEN] instead of staying. *)
Lemma emergency_trans_leaves_at_once :
  0 < Cpp.EMERGENCY_WAIT_MS /\
  Cpp.next_state Cpp.EMERGENCY_TRANS 0 (Cpp.mkInputs false false false false)
    = Cpp.NS_GREEN /\
  Cpp.next_state Cpp.EMERGENCY_TRANS 0 (Cpp.mkInputs false false false false)
    <> Cpp.EMERGENCY_TRANS.
Proof.
  repeat split; vm_compute; discriminate.
Qed.

(** C9, amended. In the normal branch the hardware module moves
    [EMERGENCY_TRANS] to [NS_GREEN] exactly when its state timer has run
    down to zero and stays otherwise; the sketch moves [EMERGENCY_TRANS]
    to [NS_GREEN] for every elapsed time. *)
Theorem emergency_trans_normal_branch :
  forall (elapsed timer sensors : Z) (r ns ew : bool),
    Verilog.next_state Verilog.EMERGENCY_TRANS timer false sensors
      = (if timer =? 0 then Verilog.NS_GREEN else Verilog.EMERGENCY_TRANS) /\
    Cpp.next_state Cpp.EMERGENCY_TRANS elapsed (Cpp.mkInputs r false ns ew)
      = Cpp.NS_GREEN.
Proof.
  intros. split; reflexivity.
Qed.

(* ================================================================== *)
(** ** Minimum dwell *)
(* ================================================================== *)

(** C3, as stated, fails: in [NS_GREEN] with no time elapsed (less than
    the 10000 ms of its dwell) and the emergency flag up, reset down, the
    transition function answers [EMERGENCY_GREEN]. *)
Lemma ns_green_preempted_before_dwell :
  0 < configured_dwell Cpp.NS_GREEN /\
  Cpp.next_state Cpp.NS_GREEN 0 (Cpp.mkInputs false true false false)
    = Cpp.EMERGENCY_GREEN /\
  Cpp.next_state Cpp.NS_GREEN 0 (Cpp.mkInputs false true false false)
    <> Cpp.NS_GREEN.
Proof.
  repeat split; vm_compute; discriminate.
Qed.

Lemma gated_state_kept : forall s elapsed i,
  dwell_gated s (Cpp.emergency_active i) = true ->
  elapsed < configured_dwell s ->
  Cpp.next_state s elapsed i = s.
Proof.
  intros s elapsed i Hg Hlt.
  unfold dwell_gated in Hg. unfold Cpp.next_state.
  destruct (Cpp.emergency_active i).
  - apply orb_true_iff in Hg. destruct Hg as [Hg | Hg];
      apply Z.eqb_eq in Hg; subst s; cbn in Hlt |- *.
    + destruct (Z.leb_spec Cpp.YELLOW_MS elapsed); [constants; lia | reflexivity].
    + destruct (Z.leb_spec Cpp.EMERGENCY_WAIT_MS elapsed);
        [constants; lia | reflexivity].
  - repeat (apply orb_true_iff in Hg; destruct Hg as [Hg | Hg]);
      apply Z.eqb_eq in Hg; subst s; cbn in Hlt |- *.
    + destruct (Z.leb_spec Cpp.INIT_MS elapsed); [constants; lia | reflexivity].
    + destruct (Z.leb_spec Cpp.NS_GREEN_MS elapsed);
        [constants; lia | reflexivity].
    + destruct (Z.leb_spec Cpp.YELLOW_MS elapsed); [constants; lia | reflexivity].
    + destruct (Z.leb_spec Cpp.EW_GREEN_MS elapsed);
        [constants; lia | reflexivity].
    + destruct (Z.leb_spec Cpp.YELLOW_MS elapsed); [constants; lia | reflexivity].
Qed.

(** C3, amended. In the sketch the transition function keeps the state
    while the elapsed time is below the dwell of the state in the normal
    branch for [INIT] (100 ms), [NS_GREEN], [NS_YELLOW], [EW_GREEN] and
    [EW_YELLOW], and in the emergency branch for [EW_YELLOW] and
    [EMERGENCY_TRANS]; an iteration of [loop] without reset taken at such
    a moment leaves state, start time and lamps as they were. *)
Theorem minimum_dwell_where_gated :
  forall (s elapsed : Z) (i : Cpp.Inputs),
    dwell_gated s (Cpp.emergency_active i) = true ->
    elapsed < configured_dwell s ->
    Cpp.next_state s elapsed i = s /\
    (forall now start p,
       Cpp.reset_active i = false ->
       Cpp.ulong_sub now start = elapsed ->
       Cpp.loop now i (Cpp.mkController s start p)
       = Cpp.mkController s start p).
Proof.
  intros s elapsed i Hg Hlt.
  pose proof (gated_state_kept s elapsed i Hg Hlt) as Hk.
  split; [exact Hk |].
  intros now start p Hr He.
  unfold Cpp.loop;
    cbn [Cpp.current_state Cpp.stateStartTime].
  rewrite Hr, He, Hk, Z.eqb_refl. reflexivity.
Qed.

Lemma minimum_dwell_where_gated_witness :
  dwell_gated Cpp.EW_GREEN false = true /\
  5999 < configured_dwell Cpp.EW_GREEN /\
  Cpp.next_state Cpp.EW_GREEN 5999 (Cpp.mkInputs false false true true)
    = Cpp.EW_GREEN.
Proof.
  split; [reflexivity | split; [reflexivity |]].
  apply (minimum_dwell_where_gated Cpp.EW_GREEN 5999
           (Cpp.mkInputs false false true true)); reflexivity.
Defined.

(** Along a run: every iteration without reset that changes a gated state
    comes when the dwell of that state is over. *)
Lemma loop_change_after_dwell : forall now em ns ew c,
  dwell_gated (Cpp.current_state c) em = true ->
  Cpp.current_state (Cpp.loop now (Cpp.mkInputs false em ns ew) c)
    <> Cpp.current_state c ->
  configured_dwell (Cpp.current_state c) <= Cpp.elapsed now c.
Proof.
  intros now em ns ew [s start p] Hg Hne.
  unfold Cpp.elapsed in *.
  cbn [Cpp.current_state Cpp.stateStartTime] in *.
  destruct (Z.le_gt_cases (configured_dwell s) (Cpp.ulong_sub now start))
    as [Hle | Hlt]; [exact Hle |].
  exfalso. apply Hne. rewrite loop_no_reset_state.
  apply gated_state_kept; [exact Hg | lia].
Qed.

(** The pairs left out of [dwell_gated] are left at once: the emergency
    branch in [INIT], [NS_GREEN], [NS_YELLOW] and [EW_GREEN], the normal
    branch in [EMERGENCY_TRANS]. *)
Lemma ungated_states_leave_at_once : forall r ns ew,
  Cpp.next_state Cpp.INIT 0 (Cpp.mkInputs r true ns ew) = Cpp.EMERGENCY_GREEN /\
  Cpp.next_state Cpp.NS_GREEN 0 (Cpp.mkInputs r true ns ew)
    = Cpp.EMERGENCY_GREEN /\
  Cpp.next_state Cpp.NS_YELLOW 0 (Cpp.mkInputs r true ns ew)
    = Cpp.EMERGENCY_GREEN /\
  Cpp.next_state Cpp.EW_GREEN 0 (Cpp.mkInputs r true ns ew) = Cpp.EW_YELLOW /\
  Cpp.next_state Cpp.EMERGENCY_TRANS 0 (Cpp.mkInputs r false ns ew)
    = Cpp.NS_GREEN.
Proof. intros. repeat split. Qed.

(** In the hardware module the normal branch keeps each timed state while
    the timer has not run down. *)
Lemma verilog_holds_while_timer_runs : forall s timer sensors,
  1 <= s <= 5 -> timer <> 0 ->
  Verilog.next_state s timer false sensors = s.
Proof.
  intros s timer sensors Hs Ht. unfold Verilog.next_state.
  apply Z.eqb_neq in Ht. rewrite Ht. cbn [andb].
  switch_on s; constants; try lia; reflexivity.
Qed.

(* ================================================================== *)
(** ** The two drivers side by side *)
(* ================================================================== *)

(** The millisecond constants are the cycle counts at 100 ms a cycle. *)
Lemma durations_identified :
  Cpp.NS_GREEN_MS = cycles_to_ms Verilog.NS_GREEN_CYCLES /\
  Cpp.EW_GREEN_MS = cycles_to_ms Verilog.EW_GREEN_CYCLES /\
  Cpp.YELLOW_MS = cycles_to_ms Verilog.YELLOW_CYCLES /\
  Cpp.EMERGENCY_WAIT_MS = cycles_to_ms Verilog.EMERGENCY_WAIT.
Proof. repeat split. Qed.

(** C4, as stated, fails: one sample taken in [EMERGENCY_TRANS], flags all
    down, no time elapsed on one side and the timer still at 4 on the
    other (both clocks say "not yet"): the sketch answers [NS_GREEN], the
    hardware module stays in [EMERGENCY_TRANS]. *)
Lemma drivers_differ_in_emergency_trans :
  identified Cpp.EMERGENCY_TRANS [sample_in_trans] /\
  cpp_sequence Cpp.EMERGENCY_TRANS [sample_in_trans] = [Cpp.NS_GREEN] /\
  verilog_sequence Verilog.EMERGENCY_TRANS [sample_in_trans]
    = [Verilog.EMERGENCY_TRANS] /\
  cpp_sequence Cpp.EMERGENCY_TRANS [sample_in_trans]
    <> verilog_sequence Verilog.EMERGENCY_TRANS [sample_in_trans].
Proof.
  split; [| split; [| split]].
  - repeat split.
  - reflexivity.
  - reflexivity.
  - vm_compute. discriminate.
Qed.

Lemma next_state_agree : forall s elapsed timer i sensors,
  same_decision s elapsed (Cpp.emergency_active i) = true ->
  timers_agree s elapsed timer ->
  sensors_agree i sensors ->
  Cpp.next_state s elapsed i
  = Verilog.next_state s timer (Cpp.emergency_active i) sensors.
Proof.
  intros s elapsed timer [r em ns ew] sensors Hd Ht [Hns Hew].
  cbn [Cpp.emergency_active Cpp.ns_sensor_active Cpp.ew_sensor_active] in *.
  unfold timers_agree, timed, configured_dwell in Ht.
  unfold same_decision, configured_dwell in Hd.
  unfold Cpp.next_state, Verilog.next_state;
    cbn [Cpp.emergency_active Cpp.ns_sensor_active Cpp.ew_sensor_active].
  rewrite <- Hns, <- Hew. clear Hns Hew.
  constants.
  destruct em; switch_on s;
    cbn [Z.eqb Pos.eqb negb orb andb] in *;
    try reflexivity; try contradiction;
    try (rewrite Ht; reflexivity);
    try (rewrite Hd; reflexivity);
    try (rewrite Ht, Hd; reflexivity).
Qed.

(** Outside [same_decision] the two functions do part, so the condition
    cannot be widened. *)
Lemma next_state_differ : forall s elapsed timer i sensors,
  same_decision s elapsed (Cpp.emergency_active i) = false ->
  timers_agree s elapsed timer ->
  Cpp.next_state s elapsed i
  <> Verilog.next_state s timer (Cpp.emergency_active i) sensors.
Proof.
  intros s elapsed timer [r em ns ew] sensors Hd Ht.
  cbn [Cpp.emergency_active Cpp.ns_sensor_active Cpp.ew_sensor_active] in *.
  unfold timers_agree, timed, configured_dwell in Ht.
  unfold same_decision, configured_dwell in Hd.
  unfold Cpp.next_state, Verilog.next_state;
    cbn [Cpp.emergency_active Cpp.ns_sensor_active Cpp.ew_sensor_active].
  constants.
  destruct em; switch_on s;
    cbn [Z.eqb Pos.eqb negb orb andb] in *;
    try discriminate Hd;
    try (rewrite Ht, Hd; discriminate);
    try (rewrite Hd; discriminate).
Qed.

(** C4, amended. Fed the same samples, with the cycle timer at zero
    exactly when the elapsed milliseconds have reached the dwell of the
    current state, the two transition functions go through the same
    states as long as no tick is taken before the dwell of its state is
    over in [EMERGENCY_TRANS] (either branch), in [EW_YELLOW] with the
    emergency flag up, or in [INIT] with the flag down. *)
Theorem drivers_agree_on_common_part : forall (l : list Sample) (s : Z),
  identified s l ->
  in_common_part s l ->
  cpp_sequence s l = verilog_sequence s l.
Proof.
  induction l as [| x rest IH]; intros s Hid Hcp; [reflexivity |].
  cbn [identified in_common_part] in Hid, Hcp.
  destruct Hid as (Ht & Hs & Hid). destruct Hcp as (Hd & Hcp).
  cbn [cpp_sequence verilog_sequence]. cbv zeta.
  rewrite <- (next_state_agree s _ _ _ _ Hd Ht Hs).
  f_equal. apply IH; assumption.
Qed.

Lemma drivers_agree_on_common_part_witness :
  identified Cpp.NS_GREEN samples_round_trip /\
  in_common_part Cpp.NS_GREEN samples_round_trip /\
  cpp_sequence Cpp.NS_GREEN samples_round_trip
    = verilog_sequence Cpp.NS_GREEN samples_round_trip /\
  cpp_sequence Cpp.NS_GREEN samples_round_trip
    = [Cpp.NS_YELLOW; Cpp.EW_GREEN; Cpp.EW_YELLOW; Cpp.EMERGENCY_TRANS;
       Cpp.EMERGENCY_GREEN; Cpp.NS_GREEN].
Proof.
  assert (Hid : identified Cpp.NS_GREEN samples_round_trip).
  { vm_compute. repeat split. }
  assert (Hcp : in_common_part Cpp.NS_GREEN samples_round_trip).
  { vm_compute. repeat split. }
  split; [exact Hid | split; [exact Hcp | split]].
  - apply (drivers_agree_on_common_part _ Cpp.NS_GREEN Hid Hcp).
  - reflexivity.
Defined.

(** While the hardware module stays in a state, each clock edge takes one
    off the timer until it is zero: after [k] edges in a state entered
    with [D - 1] in the timer, the timer reads zero exactly when
    [k >= D - 1], so the edge that leaves the state is the [D]-th. *)
Lemma verilog_timer_counts_down : forall em sensors r,
  0 <= Verilog.state_timer r < 256 ->
  Verilog.next_state (Verilog.current_state r) (Verilog.state_timer r)
    em sensors = Verilog.current_state r ->
  Verilog.posedge false em sensors r
  = Verilog.mkRegs (Verilog.current_state r)
      (Z.max (Verilog.state_timer r - 1) 0).
Proof.
  intros em sensors [s t] Ht Hn. cbn [Verilog.current_state
    Verilog.state_timer] in *.
  unfold Verilog.posedge;
    cbn [Verilog.current_state Verilog.state_timer].
  rewrite Hn, Z.eqb_refl. cbn [negb].
  destruct (Z.eqb_spec t 0) as [->|Hne]; cbn [negb]; [reflexivity |].
  unfold Verilog.reg8. rewrite Z.mod_small by lia.
  f_equal. lia.
Qed.

(* ================================================================== *)
(** ** The emergency path out of EW_GREEN *)
(* ================================================================== *)

(** C7 on the hardware module. From [EW_GREEN] with the emergency input
    held high and reset low, three clock edges go through [EW_YELLOW],
    [EMERGENCY_TRANS] and [EMERGENCY_GREEN], one edge each: [EW_YELLOW] is
    left while its timer still reads [YELLOW_CYCLES - 1] and
    [EMERGENCY_TRANS] while its timer still reads [EMERGENCY_WAIT - 1],
    so neither is held for its duration. *)
Theorem verilog_emergency_path_one_cycle_each :
  forall (timer sensors1 sensors2 sensors3 : Z),
    Verilog.edges false true [sensors1; sensors2; sensors3]
      (Verilog.mkRegs Verilog.EW_GREEN timer)
    = [ Verilog.mkRegs Verilog.EW_YELLOW (Verilog.YELLOW_CYCLES - 1);
        Verilog.mkRegs Verilog.EMERGENCY_TRANS (Verilog.EMERGENCY_WAIT - 1);
        Verilog.mkRegs Verilog.EMERGENCY_GREEN 1 ].
Proof.
  intros. reflexivity.
Qed.

(** The sketch, for comparison, does hold both states. One iteration with
    the emergency flag up and reset down: [EW_GREEN] turns yellow at once
    and restarts the clock; [EW_YELLOW] stays until [YELLOW_MS] have
    elapsed; [EMERGENCY_TRANS] stays until [EMERGENCY_WAIT_MS] have
    elapsed; [EMERGENCY_GREEN] stays. *)
Lemma cpp_emergency_path_steps : forall now ns ew start p,
  let i := Cpp.mkInputs false true ns ew in
  Cpp.loop now i (Cpp.mkController Cpp.EW_GREEN start p)
    = Cpp.mkController Cpp.EW_YELLOW now (Cpp.mkPins false false false true) /\
  Cpp.current_state (Cpp.loop now i (Cpp.mkController Cpp.EW_YELLOW start p))
    = (if Cpp.YELLOW_MS <=? Cpp.ulong_sub now start
       then Cpp.EMERGENCY_TRANS else Cpp.EW_YELLOW) /\
  Cpp.current_state
    (Cpp.loop now i (Cpp.mkController Cpp.EMERGENCY_TRANS start p))
    = (if Cpp.EMERGENCY_WAIT_MS <=? Cpp.ulong_sub now start
       then Cpp.EMERGENCY_GREEN else Cpp.EMERGENCY_TRANS) /\
  Cpp.loop now i (Cpp.mkController Cpp.EMERGENCY_GREEN start p)
    = Cpp.mkController Cpp.EMERGENCY_GREEN start p.
Proof.
  intros. subst i. split; [reflexivity | split; [| split; [| reflexivity]]];
    rewrite loop_no_reset_state; reflexivity.
Qed.

Lemma cpp_emergency_step_rank : forall now i c,
  Cpp.reset_active i = false ->
  Cpp.emergency_active i = true ->
  path_rank (Cpp.current_state c) <= 3 ->
  (path_rank (Cpp.current_state (Cpp.loop now i c))
     = path_rank (Cpp.current_state c) \/
   path_rank (Cpp.current_state (Cpp.loop now i c))
     = path_rank (Cpp.current_state c) + 1) /\
  path_rank (Cpp.current_state (Cpp.loop now i c)) <= 3.
Proof.
  intros now [r em ns ew] [s start p] Hr He Hs.
  cbn [Cpp.reset_active Cpp.emergency_active Cpp.current_state] in *.
  subst r em. rewrite loop_no_reset_state.
  unfold Cpp.next_state; cbn [Cpp.emergency_active].
  unfold path_rank in Hs.
  destruct (Z.eqb_spec s Cpp.EW_GREEN) as [->|?].
  { cbn. lia. }
  destruct (Z.eqb_spec s Cpp.EW_YELLOW) as [->|?].
  { cbn [Z.eqb Pos.eqb orb Cpp.NS_GREEN Cpp.EW_YELLOW Cpp.EMERGENCY_GREEN
         Cpp.EW_GREEN].
    destruct (Cpp.YELLOW_MS <=? _); cbn; lia. }
  destruct (Z.eqb_spec s Cpp.EMERGENCY_TRANS) as [->|?].
  { cbn [Z.eqb Pos.eqb orb Cpp.NS_GREEN Cpp.EW_YELLOW Cpp.EMERGENCY_GREEN
         Cpp.EW_GREEN Cpp.EMERGENCY_TRANS].
    destruct (Cpp.EMERGENCY_WAIT_MS <=? _); cbn; lia. }
  destruct (Z.eqb_spec s Cpp.EMERGENCY_GREEN) as [->|?].
  { cbn. lia. }
  lia.
Qed.

(** X15. Along any run of the sketch from one of the four states of the path,
    emergency held and no reset, the position on the path never goes back
    and never advances by more than one state per iteration: the states
    come in the order [EW_GREEN], [EW_YELLOW], [EMERGENCY_TRANS],
    [EMERGENCY_GREEN] and none is skipped. *)
Lemma cpp_emergency_path_in_order : forall ticks c,
  emergency_held ticks ->
  path_rank (Cpp.current_state c) <= 3 ->
  steps_by_one (path_rank (Cpp.current_state c))
    (map (fun c' => path_rank (Cpp.current_state c')) (Cpp.run ticks c)).
Proof.
  induction ticks as [| [now i] rest IH]; intros c Hh Hs; [exact I |].
  inversion Hh as [| t l [Hr He] Hrest]; subst. cbn [snd] in Hr, He.
  destruct (cpp_emergency_step_rank now i c Hr He Hs) as [Hstep Hle].
  cbn [Cpp.run map steps_by_one]. cbv zeta.
  split; [exact Hstep | apply IH; assumption].
Qed.

(* ================================================================== *)
(** ** Lamps: one at a time, the same in both implementations *)
(* ================================================================== *)

Lemma one_lamp_count : forall s p,
  lamps_lit (Cpp.updateLights s p)
    = (if (1 <=? s) && (s <=? 6) then 1 else 0) /\
  bits_lit (Verilog.light s)
    = (if (1 <=? s) && (s <=? 6) then 1 else 0).
Proof.
  intros s p. split.
  - rewrite updateLights_cases. constants.
    switch_on s; try reflexivity.
    destruct (Z.leb_spec 1 s); destruct (Z.leb_spec s 6);
      cbn [andb]; try reflexivity; lia.
  - unfold Verilog.light. constants.
    switch_on s; try reflexivity.
    destruct (Z.leb_spec 1 s); destruct (Z.leb_spec s 6);
      cbn [andb]; try reflexivity; lia.
Qed.

(** X1. Whatever integer the state holds, each output mapper lights
    exactly one lamp in the six states other than [INIT] and none in
    [INIT] or outside the enumeration: never two lamps of any colour. *)
Theorem one_lamp_per_state : forall (s : Z) (p : Cpp.Pins),
  lamps_lit (Cpp.updateLights s p)
    = (if (1 <=? s) && (s <=? 6) then 1 else 0) /\
  bits_lit (Verilog.light s)
    = (if (1 <=? s) && (s <=? 6) then 1 else 0) /\
  lamps_lit (Cpp.updateLights s p) <= 1 /\
  bits_lit (Verilog.light s) <= 1.
Proof.
  intros s p. destruct (one_lamp_count s p) as [Hc Hv].
  rewrite Hc, Hv.
  destruct ((1 <=? s) && (s <=? 6)); repeat split; lia.
Qed.

(** X2. The two output mappers agree: for every state value the lamp pins
    the sketch drives are the bits of the [light] bus of the hardware
    module, and the sketch's result does not depend on the lamp levels
    it started from. *)
Theorem output_mappers_agree : forall (s : Z) (p : Cpp.Pins),
  Cpp.updateLights s p = pins_of_light (Verilog.light s).
Proof.
  intros s p. rewrite updateLights_cases. unfold Verilog.light. constants.
  switch_on s; reflexivity.
Qed.

(* ================================================================== *)
(** ** States stay inside the enumeration *)
(* ================================================================== *)

Lemma cpp_next_state_enumerated : forall s elapsed i,
  enumerated (Cpp.next_state s elapsed i) = true.
Proof.
  intros s elapsed i. unfold Cpp.next_state.
  destruct (Cpp.emergency_active i); switch_on s; cbn [orb];
    repeat match goal with
           | |- context [if ?b then _ else _] => destruct b
           end; reflexivity.
Qed.

Lemma verilog_next_state_enumerated : forall s timer em sensors,
  enumerated (Verilog.next_state s timer em sensors) = true.
Proof.
  intros s timer em sensors. unfold Verilog.next_state.
  destruct em; switch_on s; cbn [orb];
    repeat match goal with
           | |- context [if ?b then _ else _] => destruct b
           end; reflexivity.
Qed.

Lemma loop_state_cases : forall now i c,
  Cpp.current_state (Cpp.loop now i c)
  = if Cpp.reset_active i then Cpp.INIT
    else Cpp.next_state (Cpp.current_state c) (Cpp.elapsed now c) i.
Proof.
  intros now i [s start p]. unfold Cpp.loop, Cpp.elapsed.
  cbn [Cpp.current_state Cpp.stateStartTime].
  destruct (Cpp.reset_active i); [reflexivity |].
  destruct (negb (_ =? s)) eqn:E; cbn [Cpp.current_state]; [reflexivity |].
  apply negb_false_iff, Z.eqb_eq in E. symmetry. exact E.
Qed.

Lemma posedge_state_cases : forall reset em sensors r,
  Verilog.current_state (Verilog.posedge reset em sensors r)
  = if reset then Verilog.INIT
    else Verilog.next_state (Verilog.current_state r)
           (Verilog.state_timer r) em sensors.
Proof.
  intros reset em sensors [s t]. unfold Verilog.posedge.
  cbn [Verilog.current_state Verilog.state_timer].
  destruct reset; [reflexivity |].
  destruct (negb (_ =? s)); [| destruct (negb (t =? 0))]; reflexivity.
Qed.

(** X3. After one iteration of [loop], and after one clock edge of the
    hardware module, the state is one of the seven enumerators whatever
    it was before: the [default] arms return an enumerator and every
    other arm returns a constant or a state it has just recognised, so an
    invalid state value never survives a tick. *)
Theorem state_enumerated_after_tick :
  forall (now : Z) (i : Cpp.Inputs) (c : Cpp.Controller)
         (reset em : bool) (sensors : Z) (r : Verilog.Regs),
    enumerated (Cpp.current_state (Cpp.loop now i c)) = true /\
    enumerated (Verilog.current_state (Verilog.posedge reset em sensors r))
      = true.
Proof.
  intros. rewrite loop_state_cases, posedge_state_cases. split.
  - destruct (Cpp.reset_active i);
      [reflexivity | apply cpp_next_state_enumerated].
  - destruct reset; [reflexivity | apply verilog_next_state_enumerated].
Qed.

(* ================================================================== *)
(** ** What loop keeps from one iteration to the next *)
(* ================================================================== *)

Lemma loop_keeps_lamps : forall now i c,
  lamps_follow_state c -> lamps_follow_state (Cpp.loop now i c).
Proof.
  intros now i [s start p] H. unfold lamps_follow_state in *.
  unfold Cpp.loop. cbn [Cpp.current_state Cpp.stateStartTime Cpp.pins] in *.
  destruct (Cpp.reset_active i).
  - cbn [Cpp.current_state Cpp.pins]. apply updateLights_idempotent.
  - destruct (negb (_ =? s)); cbn [Cpp.current_state Cpp.pins].
    + apply updateLights_idempotent.
    + exact H.
Qed.

(** X4. From [setup] on, at the end of every iteration of [loop] the
    lamp pins are those of the current state (the lamps are rewritten
    only on a state change or a reset, and that is enough), the state is
    an enumerator and at most one lamp is lit. *)
Theorem lamps_follow_state_from_setup :
  forall (ticks : list (Z * Cpp.Inputs)) (now : Z) (p : Cpp.Pins),
    Forall (fun c => lamps_follow_state c /\
                     enumerated (Cpp.current_state c) = true /\
                     lamps_lit (Cpp.pins c) <= 1)
           (Cpp.run ticks (Cpp.setup now p)).
Proof.
  intros ticks now p.
  assert (H0 : lamps_follow_state (Cpp.setup now p)).
  { unfold lamps_follow_state, Cpp.setup. cbn [Cpp.pins Cpp.current_state].
    apply updateLights_idempotent. }
  revert H0. generalize (Cpp.setup now p) as c.
  induction ticks as [| [t i] rest IH]; intros c Hc; [constructor |].
  cbn [Cpp.run]. cbv zeta.
  pose proof (loop_keeps_lamps t i c Hc) as Hc'.
  constructor; [| apply IH; exact Hc'].
  split; [exact Hc' | split].
  - rewrite loop_state_cases. destruct (Cpp.reset_active i);
      [reflexivity | apply cpp_next_state_enumerated].
  - rewrite Hc'.
    rewrite (proj1 (one_lamp_count _ all_off)).
    destruct ((1 <=? _) && (_ <=? 6)); lia.
Qed.

(** X5. The phase clock is restarted exactly on a state change or a reset:
    an iteration of [loop] either leaves the controller untouched (reset
    down, state kept: start time and lamps as they were), or sets the
    start time to the present, so that no time has elapsed in the new
    state, and then reset was up or the state has changed. *)
Theorem phase_clock_restarts_on_change :
  forall (now : Z) (i : Cpp.Inputs) (c : Cpp.Controller),
    (Cpp.reset_active i = false /\ Cpp.loop now i c = c) \/
    (Cpp.stateStartTime (Cpp.loop now i c) = now /\
     Cpp.elapsed now (Cpp.loop now i c) = 0 /\
     (Cpp.reset_active i = true \/
      Cpp.current_state (Cpp.loop now i c) <> Cpp.current_state c)).
Proof.
  intros now i [s start p]. unfold Cpp.loop, Cpp.elapsed.
  cbn [Cpp.current_state Cpp.stateStartTime Cpp.pins].
  destruct (Cpp.reset_active i).
  - right. cbn [Cpp.stateStartTime]. rewrite ulong_sub_diag. auto.
  - destruct (negb (_ =? s)) eqn:E.
    + right. cbn [Cpp.stateStartTime Cpp.current_state].
      rewrite ulong_sub_diag. apply negb_true_iff, Z.eqb_neq in E. auto.
    + left. auto.
Qed.

(** X6. The elapsed time is right across the roll-over of [millis()]:
    if the state was entered at [start] and [d] milliseconds have passed
    since, both within 32 bits, the wrapped subtraction gives [d] even
    when the counter has wrapped in between. *)
Theorem elapsed_across_rollover :
  forall (start d : Z) (s : Z) (p : Cpp.Pins),
    0 <= start < Cpp.ULONG_MAX1 ->
    0 <= d < Cpp.ULONG_MAX1 ->
    Cpp.elapsed ((start + d) mod Cpp.ULONG_MAX1) (Cpp.mkController s start p)
      = d.
Proof.
  intros start d s p Hs Hd. unfold Cpp.elapsed, Cpp.ulong_sub.
  cbn [Cpp.stateStartTime].
  rewrite Zminus_mod_idemp_l.
  replace (start + d - start) with d by lia.
  apply Z.mod_small. exact Hd.
Qed.

Lemma elapsed_across_rollover_witness :
  0 <= 4294967000 < Cpp.ULONG_MAX1 /\
  0 <= 2000 < Cpp.ULONG_MAX1 /\
  (4294967000 + 2000) mod Cpp.ULONG_MAX1 = 1704 /\
  Cpp.elapsed 1704 (Cpp.mkController Cpp.NS_YELLOW 4294967000 all_off) = 2000.
Proof.
  split; [vm_compute; split; [discriminate | reflexivity] |].
  split; [vm_compute; split; [discriminate | reflexivity] |].
  split; [reflexivity |].
  apply (elapsed_across_rollover 4294967000 2000 Cpp.NS_YELLOW all_off);
    vm_compute; split; (discriminate || reflexivity).
Defined.

(* ================================================================== *)
(** ** Switching between the approaches *)
(* ================================================================== *)

(** X7. No tick switches from one green to the conflicting green: after
    an iteration of [loop] (reset or not, emergency or not) the east-west
    green is never lit if the north-south green was lit in the state
    before, nor the other way round; the only state from which
    [EW_GREEN] is entered is [NS_YELLOW]. The same holds of a clock edge
    of the hardware module. *)
Theorem no_green_to_conflicting_green :
  forall (now : Z) (i : Cpp.Inputs) (c : Cpp.Controller)
         (reset em : bool) (sensors : Z) (r : Verilog.Regs),
    (Cpp.ns_g (Cpp.updateLights (Cpp.current_state c) all_off)
     && Cpp.ew_g (Cpp.updateLights
                    (Cpp.current_state (Cpp.loop now i c)) all_off) = false /\
     Cpp.ew_g (Cpp.updateLights (Cpp.current_state c) all_off)
     && Cpp.ns_g (Cpp.updateLights
                    (Cpp.current_state (Cpp.loop now i c)) all_off) = false /\
     (Cpp.current_state (Cpp.loop now i c) = Cpp.EW_GREEN ->
      Cpp.current_state c = Cpp.EW_GREEN \/
      Cpp.current_state c = Cpp.NS_YELLOW)) /\
    (Z.testbit (Verilog.light (Verilog.current_state r)) 0
     && Z.testbit (Verilog.light (Verilog.current_state
                     (Verilog.posedge reset em sensors r))) 2 = false /\
     Z.testbit (Verilog.light (Verilog.current_state r)) 2
     && Z.testbit (Verilog.light (Verilog.current_state
                     (Verilog.posedge reset em sensors r))) 0 = false /\
     (Verilog.current_state (Verilog.posedge reset em sensors r)
        = Verilog.EW_GREEN ->
      Verilog.current_state r = Verilog.EW_GREEN \/
      Verilog.current_state r = Verilog.NS_YELLOW)).
Proof.
  intros now [ir iem ins iew] [s start p] reset em sensors [vs vt].
  rewrite loop_state_cases, posedge_state_cases.
  rewrite !updateLights_cases.
  cbn [Cpp.current_state Verilog.current_state Verilog.state_timer
       Cpp.reset_active].
  unfold Cpp.next_state, Verilog.next_state, Verilog.light.
  cbn [Cpp.emergency_active Cpp.ns_sensor_active Cpp.ew_sensor_active].
  constants.
  split.
  - destruct ir, iem, ins, iew; switch_on s;
      repeat match goal with
             | |- context [?a <=? ?b] => destruct (a <=? b)
             end;
      cbn; repeat split; intros; try discriminate; try lia; auto.
  - destruct reset, em, (vt =? 0), (Verilog.ew_sensor_active sensors),
      (Verilog.ns_sensor_active sensors); switch_on vs;
      cbn; repeat split; intros; try discriminate; try lia; auto.
Qed.

(* ================================================================== *)
(** ** What the transition functions do not look at *)
(* ================================================================== *)

(** X8. With the emergency flag up the decision does not depend on the
    demand flags: the sketch gives the same next state for any two input
    samples with the flag up, and the hardware module for any two sensor
    buses (and any two timer values). Neither yellow state looks at the
    demand flags in the normal branch either, and the reset flag is never
    read by the transition function of the sketch. *)
Theorem emergency_ignores_demand :
  forall (s elapsed : Z) (r ns ew r' ns' ew' : bool)
         (timer sensors timer' sensors' : Z) (em : bool),
    Cpp.next_state s elapsed (Cpp.mkInputs r true ns ew)
      = Cpp.next_state s elapsed (Cpp.mkInputs r' true ns' ew') /\
    Verilog.next_state s timer true sensors
      = Verilog.next_state s timer' true sensors' /\
    Cpp.next_state Cpp.NS_YELLOW elapsed (Cpp.mkInputs r false ns ew)
      = Cpp.next_state Cpp.NS_YELLOW elapsed (Cpp.mkInputs r' false ns' ew') /\
    Cpp.next_state Cpp.EW_YELLOW elapsed (Cpp.mkInputs r false ns ew)
      = Cpp.next_state Cpp.EW_YELLOW elapsed (Cpp.mkInputs r' false ns' ew') /\
    Cpp.next_state s elapsed (Cpp.mkInputs r em ns ew)
      = Cpp.next_state s elapsed (Cpp.mkInputs r' em ns ew).
Proof.
  intros. repeat split.
Qed.

(** X9. In the normal branch, with demand on both approaches, no
    enumerated state is kept once its dwell is over: the sketch leaves the
    state as soon as the elapsed time has reached the dwell of the state,
    the hardware module as soon as its timer reads zero. *)
Theorem normal_cycle_advances :
  forall (s elapsed sensors : Z) (r : bool),
    enumerated s = true ->
    configured_dwell s <= elapsed ->
    Verilog.ns_sensor_active sensors = true ->
    Verilog.ew_sensor_active sensors = true ->
    Cpp.next_state s elapsed (Cpp.mkInputs r false true true) <> s /\
    Verilog.next_state s 0 false sensors <> s.
Proof.
  intros s elapsed sensors r Hs Hd Hns Hew.
  unfold enumerated in Hs. apply andb_true_iff in Hs.
  destruct Hs as [H0 H6]. apply Z.leb_le in H0, H6.
  unfold configured_dwell in Hd.
  unfold Cpp.next_state, Verilog.next_state.
  cbn [Cpp.emergency_active Cpp.ns_sensor_active Cpp.ew_sensor_active].
  rewrite Hns, Hew. constants.
  split.
  - switch_on s; cbn [Z.eqb Pos.eqb andb] in *;
      try (match goal with
           | |- context [?a <=? elapsed] =>
               replace (a <=? elapsed) with true
                 by (symmetry; apply Z.leb_le; lia)
           end); cbn; try discriminate; lia.
  - switch_on s; cbn; try discriminate; lia.
Qed.

Lemma normal_cycle_advances_witness :
  enumerated Cpp.EW_GREEN = true /\
  configured_dwell Cpp.EW_GREEN <= 6000 /\
  Cpp.next_state Cpp.EW_GREEN 6000 (Cpp.mkInputs false false true true)
    <> Cpp.EW_GREEN.
Proof.
  split; [reflexivity | split; [vm_compute; discriminate |]].
  apply (normal_cycle_advances Cpp.EW_GREEN 6000 15 false);
    [reflexivity | vm_compute; discriminate | reflexivity | reflexivity].
Defined.

(* ================================================================== *)
(** ** The cycle timer of the hardware module *)
(* ================================================================== *)

Lemma timer_load_bounds : forall next,
  1 <= Verilog.timer_load next <= 99.
Proof.
  intros next. unfold Verilog.timer_load.
  switch_on next; vm_compute; split; discriminate.
Qed.

(** X10. The eight-bit timer never wraps: from a value within its eight
    bits a clock edge (or a reset) leaves it within eight bits, never
    above the larger of its old value and 99 (the longest load,
    [NS_GREEN_CYCLES - 1]); at zero it stays at zero while the state is
    kept, it is never decremented below. *)
Theorem timer_never_wraps :
  forall (reset em : bool) (sensors : Z) (r : Verilog.Regs),
    0 <= Verilog.state_timer r < 256 ->
    0 <= Verilog.state_timer (Verilog.posedge reset em sensors r)
      <= Z.max (Verilog.state_timer r) 99 /\
    (Verilog.state_timer r = 0 ->
     Verilog.current_state (Verilog.posedge reset em sensors r)
       = Verilog.current_state r ->
     Verilog.state_timer (Verilog.posedge reset em sensors r) = 0).
Proof.
  intros reset em sensors [s t] Ht.
  unfold Verilog.posedge.
  cbn [Verilog.current_state Verilog.state_timer] in *.
  destruct reset.
  { cbn [Verilog.state_timer Verilog.current_state]. split; [lia | auto]. }
  set (n := Verilog.next_state s t em sensors).
  destruct (Z.eqb_spec n s) as [Hn | Hn]; cbn [negb].
  - destruct (Z.eqb_spec t 0) as [-> | Ht0]; cbn [negb];
      cbn [Verilog.state_timer Verilog.current_state].
    + split; [lia | auto].
    + unfold Verilog.reg8. rewrite Z.mod_small by lia.
      split; [lia | intros; lia].
  - cbn [Verilog.state_timer Verilog.current_state].
    pose proof (timer_load_bounds n). split; [lia | intros; contradiction].
Qed.

Lemma timer_never_wraps_witness :
  0 <= 0 < 256 /\
  Verilog.state_timer
    (Verilog.posedge false false 3 (Verilog.mkRegs Verilog.NS_GREEN 0)) = 0.
Proof.
  split; [lia |].
  assert (Hb : 0 <= Verilog.state_timer (Verilog.mkRegs Verilog.NS_GREEN 0)
               < 256) by (cbn; lia).
  destruct (timer_never_wraps false false 3
              (Verilog.mkRegs Verilog.NS_GREEN 0) Hb) as [_ Hzero].
  apply Hzero; reflexivity.
Defined.

Lemma edges_hold : forall (sensors : list Z) (s t : Z),
  1 <= s <= 5 ->
  Z.of_nat (List.length sensors) <= t < 256 ->
  Verilog.edges false false sensors (Verilog.mkRegs s t)
  = map (fun k => Verilog.mkRegs s (t - Z.of_nat k))
        (seq 1 (List.length sensors)).
Proof.
  induction sensors as [| x rest IH]; intros s t Hs Ht; [reflexivity |].
  cbn [List.length] in Ht. rewrite Nat2Z.inj_succ in Ht.
  cbn [Verilog.edges List.length seq map]. cbv zeta.
  assert (Hstep : Verilog.posedge false false x (Verilog.mkRegs s t)
                  = Verilog.mkRegs s (t - 1)).
  { rewrite verilog_timer_counts_down;
      cbn [Verilog.current_state Verilog.state_timer]; try lia.
    - f_equal. lia.
    - apply verilog_holds_while_timer_runs; lia. }
  rewrite Hstep. f_equal.
  rewrite IH by lia.
  rewrite <- (seq_shift (List.length rest) 1), map_map.
  apply map_ext. intros k. f_equal. lia.
Qed.

(** X11. Minimum dwell of the hardware module over a run. With reset and
    emergency low, a timed state ([NS_GREEN] to [EMERGENCY_TRANS]) whose
    timer reads [t] is still the state after each of the next [t] clock
    edges, whatever the sensors do meanwhile, and the timer has gone down
    by one per edge. *)
Theorem verilog_dwell_over_run :
  forall (sensors : list Z) (s t : Z),
    1 <= s <= 5 ->
    Z.of_nat (List.length sensors) <= t < 256 ->
    Forall (fun r => Verilog.current_state r = s)
           (Verilog.edges false false sensors (Verilog.mkRegs s t)) /\
    last (Verilog.edges false false sensors (Verilog.mkRegs s t))
         (Verilog.mkRegs s t)
      = Verilog.mkRegs s (t - Z.of_nat (List.length sensors)).
Proof.
  intros sensors s t Hs Ht. rewrite edges_hold by assumption. split.
  - apply Forall_forall. intros r Hin. apply in_map_iff in Hin.
    destruct Hin as (k & <- & _). reflexivity.
  - destruct sensors as [| x rest].
    + cbn. f_equal. lia.
    + cbn [List.length]. rewrite seq_S, map_app. cbn [map].
      rewrite last_last.
      f_equal; lia.
Qed.

Lemma verilog_dwell_over_run_witness :
  1 <= Verilog.NS_YELLOW <= 5 /\
  Z.of_nat (List.length [12; 0; 3]) <= 19 < 256 /\
  last (Verilog.edges false false [12; 0; 3]
          (Verilog.mkRegs Verilog.NS_YELLOW 19))
       (Verilog.mkRegs Verilog.NS_YELLOW 19)
    = Verilog.mkRegs Verilog.NS_YELLOW 16.
Proof.
  split; [vm_compute; split; discriminate |].
  split; [vm_compute; split; [discriminate | reflexivity] |].
  apply (verilog_dwell_over_run [12; 0; 3] Verilog.NS_YELLOW 19);
    [vm_compute; split; discriminate
    | vm_compute; split; [discriminate | reflexivity]].
Defined.



(* ================================================================== *)
(** ** How fast the emergency green comes *)
(* ================================================================== *)

Lemma verilog_three_emergency_decisions : forall s t1 t2 t3 x1 x2 x3,
  Verilog.next_state
    (Verilog.next_state (Verilog.next_state s t1 true x1) t2 true x2)
    t3 true x3 = Verilog.EMERGENCY_GREEN.
Proof.
  intros. unfold Verilog.next_state at 3. constants.
  switch_on s; reflexivity.
Qed.

Lemma verilog_emergency_green_kept : forall sensors r,
  Verilog.current_state r = Verilog.EMERGENCY_GREEN ->
  Forall (fun r' => Verilog.current_state r' = Verilog.EMERGENCY_GREEN)
         (Verilog.edges false true sensors r).
Proof.
  induction sensors as [| x rest IH]; intros r Hr; [constructor |].
  cbn [Verilog.edges]. cbv zeta.
  assert (Hn : Verilog.current_state (Verilog.posedge false true x r)
               = Verilog.EMERGENCY_GREEN).
  { rewrite posedge_state_cases, Hr. reflexivity. }
  constructor; [exact Hn | apply IH; exact Hn].
Qed.

(** X13. With the emergency input held high and reset low, the hardware
    module is in [EMERGENCY_GREEN] from the third clock edge on, whatever
    state (valid or not) and timer it started from and whatever the
    sensors do, and it stays there for as long as the input is held. *)
Theorem verilog_emergency_green_within_three_edges :
  forall (x1 x2 x3 : Z) (rest : list Z) (r : Verilog.Regs),
    Forall (fun r' => Verilog.current_state r' = Verilog.EMERGENCY_GREEN)
           (skipn 2 (Verilog.edges false true (x1 :: x2 :: x3 :: rest) r)).
Proof.
  intros x1 x2 x3 rest r.
  cbn [Verilog.edges skipn]. cbv zeta.
  assert (H3 : Verilog.current_state
                 (Verilog.posedge false true x3
                    (Verilog.posedge false true x2
                       (Verilog.posedge false true x1 r)))
               = Verilog.EMERGENCY_GREEN).
  { rewrite !posedge_state_cases. apply verilog_three_emergency_decisions. }
  constructor; [exact H3 | apply verilog_emergency_green_kept; exact H3].
Qed.

Lemma loop_start_cases : forall now i c,
  Cpp.stateStartTime (Cpp.loop now i c)
  = if Cpp.reset_active i
       || negb (Cpp.next_state (Cpp.current_state c) (Cpp.elapsed now c) i
                =? Cpp.current_state c)
    then now else Cpp.stateStartTime c.
Proof.
  intros now i [s start p]. unfold Cpp.loop, Cpp.elapsed.
  cbn [Cpp.current_state Cpp.stateStartTime].
  destruct (Cpp.reset_active i); [reflexivity |]. cbn [orb].
  destruct (negb (_ =? s)); reflexivity.
Qed.

Lemma emergency_tick : forall now ns ew c,
  0 <= Cpp.stateStartTime c <= now ->
  now < Cpp.ULONG_MAX1 ->
  0 <= Cpp.stateStartTime (Cpp.loop now (Cpp.mkInputs false true ns ew) c)
    <= now /\
  to_go (Cpp.current_state (Cpp.loop now (Cpp.mkInputs false true ns ew) c))
    <= 2 /\
  to_go (Cpp.current_state (Cpp.loop now (Cpp.mkInputs false true ns ew) c))
    <= to_go (Cpp.current_state c) /\
  (Cpp.stateStartTime c + Cpp.YELLOW_MS <= now ->
   to_go (Cpp.current_state (Cpp.loop now (Cpp.mkInputs false true ns ew) c))
     <= Z.max (to_go (Cpp.current_state c) - 1) 0).
Proof.
  intros now ns ew [s start p] Hs Hn.
  rewrite loop_start_cases, loop_state_cases.
  unfold Cpp.elapsed, Cpp.ulong_sub.
  cbn [Cpp.current_state Cpp.stateStartTime Cpp.reset_active orb] in *.
  rewrite (Z.mod_small (now - start)) by lia.
  unfold Cpp.next_state, to_go; cbn [Cpp.emergency_active].
  constants.
  switch_on s;
    repeat match goal with
           | |- context [?a =? s] => destruct (Z.eqb_spec a s)
           end;
    cbn [Z.eqb Pos.eqb orb negb];
    repeat match goal with
           | |- context [?a <=? now - start] =>
               destruct (Z.leb_spec a (now - start))
           end;
    cbn [Z.eqb Pos.eqb orb negb]; repeat split; intros; lia.
Qed.

(** X14. How fast the sketch grants the emergency green. Three
    iterations of [loop] with the emergency flag up and reset down, the
    second and third taken at least [YELLOW_MS] after the iteration
    before (the millisecond counter not wrapping meanwhile), end in
    [EMERGENCY_GREEN] from any state, valid or not. *)
Theorem cpp_emergency_green_within_three_polls :
  forall (t1 t2 t3 : Z) (n1 e1 n2 e2 n3 e3 : bool) (c : Cpp.Controller),
    0 <= Cpp.stateStartTime c <= t1 ->
    t1 + Cpp.YELLOW_MS <= t2 ->
    t2 + Cpp.YELLOW_MS <= t3 ->
    t3 < Cpp.ULONG_MAX1 ->
    Cpp.current_state
      (Cpp.loop t3 (Cpp.mkInputs false true n3 e3)
         (Cpp.loop t2 (Cpp.mkInputs false true n2 e2)
            (Cpp.loop t1 (Cpp.mkInputs false true n1 e1) c)))
    = Cpp.EMERGENCY_GREEN.
Proof.
  intros t1 t2 t3 n1 e1 n2 e2 n3 e3 c H0 H12 H23 H3.
  assert (HY : Cpp.YELLOW_MS = 2000) by reflexivity.
  set (i1 := Cpp.mkInputs false true n1 e1) in *.
  set (i2 := Cpp.mkInputs false true n2 e2) in *.
  set (i3 := Cpp.mkInputs false true n3 e3) in *.
  destruct (emergency_tick t1 n1 e1 c) as (Hs1 & Hg1 & _ & _);
    [exact H0 | lia |].
  fold i1 in Hs1, Hg1.
  destruct (emergency_tick t2 n2 e2 (Cpp.loop t1 i1 c))
    as (Hs2 & _ & _ & Hg2); [lia | lia |].
  fold i2 in Hs2, Hg2.
  destruct (emergency_tick t3 n3 e3 (Cpp.loop t2 i2 (Cpp.loop t1 i1 c)))
    as (_ & _ & _ & Hg3); [lia | lia |].
  fold i3 in Hg3.
  specialize (Hg2 ltac:(lia)). specialize (Hg3 ltac:(lia)).
  assert (Hz : to_go (Cpp.current_state
                        (Cpp.loop t3 i3 (Cpp.loop t2 i2 (Cpp.loop t1 i1 c))))
               <= 0) by lia.
  revert Hz. generalize (Cpp.current_state
    (Cpp.loop t3 i3 (Cpp.loop t2 i2 (Cpp.loop t1 i1 c)))).
  intros s. unfold to_go.
  switch_on s; intros; try reflexivity; lia.
Qed.

Lemma cpp_emergency_green_within_three_polls_witness :
  0 <= 0 <= 100 /\ 100 + Cpp.YELLOW_MS <= 2100 /\
  2100 + Cpp.YELLOW_MS <= 4100 /\ 4100 < Cpp.ULONG_MAX1 /\
  Cpp.current_state
    (Cpp.loop 4100 (Cpp.mkInputs false true false false)
       (Cpp.loop 2100 (Cpp.mkInputs false true false false)
          (Cpp.loop 100 (Cpp.mkInputs false true false false)
             (Cpp.mkController Cpp.EW_GREEN 0 all_off))))
  = Cpp.EMERGENCY_GREEN.
Proof.
  split; [lia |].
  split; [vm_compute; discriminate |].
  split; [vm_compute; discriminate |].
  split; [reflexivity |].
  apply (cpp_emergency_green_within_three_polls 100 2100 4100
           false false false false false false
           (Cpp.mkController Cpp.EW_GREEN 0 all_off));
    [cbn; lia | vm_compute; discriminate | vm_compute; discriminate
    | reflexivity].
Defined.

Lemma cpp_emergency_path_in_order_witness :
  emergency_held
    [ (100, Cpp.mkInputs false true false false);
      (1500, Cpp.mkInputs false true true false);
      (2100, Cpp.mkInputs false true false true);
      (2700, Cpp.mkInputs false true false false) ] /\
  path_rank Cpp.EW_GREEN <= 3 /\
  map (fun c' => path_rank (Cpp.current_state c'))
    (Cpp.run
       [ (100, Cpp.mkInputs false true false false);
         (1500, Cpp.mkInputs false true true false);
         (2100, Cpp.mkInputs false true false true);
         (2700, Cpp.mkInputs false true false false) ]
       (Cpp.mkController Cpp.EW_GREEN 0 all_off)) = [1; 1; 2; 3] /\
  steps_by_one (path_rank Cpp.EW_GREEN)
    (map (fun c' => path_rank (Cpp.current_state c'))
       (Cpp.run
          [ (100, Cpp.mkInputs false true false false);
            (1500, Cpp.mkInputs false true true false);
            (2100, Cpp.mkInputs false true false true);
            (2700, Cpp.mkInputs false true false false) ]
          (Cpp.mkController Cpp.EW_GREEN 0 all_off))).
Proof.
  assert (Hh : emergency_held
    [ (100, Cpp.mkInputs false true false false);
      (1500, Cpp.mkInputs false true true false);
      (2100, Cpp.mkInputs false true false true);
      (2700, Cpp.mkInputs false true false false) ]).
  { repeat constructor. }
  assert (Hr : path_rank Cpp.EW_GREEN <= 3) by (vm_compute; discriminate).
  split; [exact Hh | split; [exact Hr | split; [reflexivity |]]].
  apply (cpp_emergency_path_in_order _
           (Cpp.mkController Cpp.EW_GREEN 0 all_off) Hh Hr).
Defined.

(* ================================================================== *)
(** ** Serial output *)
(* ================================================================== *)

Lemma printStateName_unknown : forall s,
  Cpp.printStateName s = "UNKNOWN"%string <-> enumerated s = false.
Proof.
  intros s. unfold Cpp.printStateName, enumerated. constants.
  switch_on s; split; intros H; try discriminate H; try reflexivity.
  - destruct (Z.leb_spec 0 s); destruct (Z.leb_spec s 6);
      cbn [andb]; try reflexivity; lia.
Qed.

(** X16. [printStateName] names the states without ambiguity: a value
    whose printed name is that of an enumerated state is that state; in
    particular no value outside the enumeration shares a name with a
    state, and no two states share one. *)
Theorem printStateName_injective : forall a b : Z,
  enumerated a = true ->
  Cpp.printStateName a = Cpp.printStateName b ->
  a = b.
Proof.
  intros a b Ha.
  assert (Hua : Cpp.printStateName a <> "UNKNOWN"%string).
  { intros H. apply printStateName_unknown in H. congruence. }
  revert Hua. unfold Cpp.printStateName. constants.
  switch_on a; switch_on b; intros Hua H;
    try reflexivity; try discriminate H; congruence.
Qed.

Lemma printStateName_injective_witness :
  enumerated Cpp.EW_YELLOW = true /\
  Cpp.printStateName Cpp.EW_YELLOW = Cpp.printStateName 4 /\
  Cpp.EW_YELLOW = 4.
Proof.
  split; [reflexivity | split; [reflexivity |]].
  apply (printStateName_injective Cpp.EW_YELLOW 4); reflexivity.
Defined.

(** X17. The serial log follows the state: in an iteration of [loop]
    without reset, no "State Change" line is printed when the state is
    kept; when it changes, the output ends with the line naming the old
    state and the state [loop] has moved to; and from an enumerated state
    the text "UNKNOWN" is never printed. *)
Theorem serial_reports_state_changes :
  forall (now : Z) (i : Cpp.Inputs) (c : Cpp.Controller),
    Cpp.reset_active i = false ->
    (Cpp.current_state (Cpp.loop now i c) = Cpp.current_state c ->
     ~ In (Cpp.print "State Change: ") (Cpp.loop_serial now i c)) /\
    (Cpp.current_state (Cpp.loop now i c) <> Cpp.current_state c ->
     exists notice,
       Cpp.loop_serial now i c
       = notice ++
         [ Cpp.print "State Change: ";
           Cpp.print (Cpp.printStateName (Cpp.current_state c));
           Cpp.print " -> ";
           Cpp.print (Cpp.printStateName
                        (Cpp.current_state (Cpp.loop now i c)));
           Cpp.println "" ]) /\
    (enumerated (Cpp.current_state c) = true ->
     ~ In (Cpp.print "UNKNOWN") (Cpp.loop_serial now i c)).
Proof.
  intros now i [s start p] Hr.
  rewrite loop_state_cases, Hr. unfold Cpp.elapsed, Cpp.loop_serial.
  rewrite Hr. cbn [Cpp.current_state Cpp.stateStartTime]. cbv zeta.
  set (next := Cpp.next_state s (Cpp.ulong_sub now start) i).
  set (notice := if Cpp.emergency_active i then []
                 else if s =? Cpp.EMERGENCY_TRANS
                 then [Cpp.println "Emergency ended during TRANS -> NS_GREEN"]
                 else if s =? Cpp.EMERGENCY_GREEN
                 then [Cpp.println "Emergency ended -> NS_GREEN"]
                 else []).
  assert (Hnotice : forall t, ~ In (Cpp.print t) notice).
  { intros t. subst notice.
    destruct (Cpp.emergency_active i); [intros [] |].
    destruct (s =? Cpp.EMERGENCY_TRANS);
      [intros [H | []]; discriminate H |].
    destruct (s =? Cpp.EMERGENCY_GREEN);
      [intros [H | []]; discriminate H | intros []]. }
  split; [| split].
  - intros Hsame. rewrite Hsame, Z.eqb_refl. cbn [negb].
    rewrite app_nil_r. apply Hnotice.
  - intros Hne. apply Z.eqb_neq in Hne. rewrite Hne. cbn [negb].
    exists notice. reflexivity.
  - intros Hs Hin. apply in_app_or in Hin. destruct Hin as [Hin | Hin].
    + exact (Hnotice _ Hin).
    + destruct (negb (next =? s)); [| destruct Hin].
      cbn [In] in Hin.
      destruct Hin as [H | [H | [H | [H | [H | []]]]]];
        try discriminate H; injection H as H;
        apply printStateName_unknown in H.
      * congruence.
      * subst next. rewrite cpp_next_state_enumerated in H. discriminate H.
Qed.

Lemma serial_reports_state_changes_witness :
  Cpp.reset_active (Cpp.mkInputs false false false true) = false /\
  Cpp.loop_serial 10000 (Cpp.mkInputs false false false true)
    (Cpp.mkController Cpp.NS_GREEN 0 all_off)
  = [ Cpp.print "State Change: "; Cpp.print "NS_GREEN"; Cpp.print " -> ";
      Cpp.print "NS_YELLOW"; Cpp.println "" ] /\
  ~ In (Cpp.print "UNKNOWN")
       (Cpp.loop_serial 10000 (Cpp.mkInputs false false false true)
          (Cpp.mkController Cpp.NS_GREEN 0 all_off)).
Proof.
  split; [reflexivity | split; [reflexivity |]].
  apply (serial_reports_state_changes 10000
           (Cpp.mkInputs false false false true)
           (Cpp.mkController Cpp.NS_GREEN 0 all_off)); reflexivity.
Defined.

(* ================================================================== *)
(** ** Reading the pins *)
(* ================================================================== *)

(** X18. The two implementations join the sensors the same way: with the
    four sensor pins of the sketch laid out on the sensor bus of the
    hardware module (NS1, NS2, EW1, EW2 on bits 0 to 3), the demand flags
    [readInputs] computes are the ones the hardware module derives from
    the bus. *)
Theorem readInputs_matches_sensor_bus : forall digitalRead : Z -> bool,
  sensors_agree (Cpp.readInputs digitalRead) (sensor_bus digitalRead).
Proof.
  intros d. unfold sensors_agree, Cpp.readInputs, sensor_bus,
    Verilog.ns_sensor_active, Verilog.ew_sensor_active.
  cbn [Cpp.ns_sensor_active Cpp.ew_sensor_active].
  destruct (d Cpp.SENSOR_NS1_PIN), (d Cpp.SENSOR_NS2_PIN),
    (d Cpp.SENSOR_EW1_PIN), (d Cpp.SENSOR_EW2_PIN); split; reflexivity.
Qed.

(** X19. While the reset pin or the emergency pin is held LOW (both are
    active low), an iteration of [loop] does not depend on any other pin:
    two readings that agree on these two pins give the same controller,
    whatever the sensor pins show. *)
Theorem asserted_reset_or_emergency_masks_sensors :
  forall (now : Z) (d d' : Z -> bool) (c : Cpp.Controller),
    d Cpp.RESET_PIN = d' Cpp.RESET_PIN ->
    d Cpp.EMERGENCY_PIN = d' Cpp.EMERGENCY_PIN ->
    d Cpp.RESET_PIN = Cpp.LOW \/ d Cpp.EMERGENCY_PIN = Cpp.LOW ->
    Cpp.loop_iteration now d c = Cpp.loop_iteration now d' c.
Proof.
  intros now d d' c Hr He Hlow.
  unfold Cpp.loop_iteration, Cpp.readInputs, Cpp.loop.
  cbn [Cpp.reset_active]. rewrite <- Hr.
  destruct (d Cpp.RESET_PIN) eqn:Er; cbn [Bool.eqb Cpp.LOW]; [| reflexivity].
  destruct Hlow as [Hlow | Hlow]; [discriminate Hlow |].
  unfold Cpp.next_state; cbn [Cpp.emergency_active].
  rewrite <- He, Hlow. reflexivity.
Qed.

Lemma asserted_reset_or_emergency_masks_sensors_witness :
  (fun pin : Z => pin =? 2) Cpp.RESET_PIN
    = (fun pin : Z => (pin =? 2) || (pin =? 6)) Cpp.RESET_PIN /\
  (fun pin : Z => pin =? 2) Cpp.EMERGENCY_PIN
    = (fun pin : Z => (pin =? 2) || (pin =? 6)) Cpp.EMERGENCY_PIN /\
  (fun pin : Z => pin =? 2) Cpp.EMERGENCY_PIN = Cpp.LOW /\
  Cpp.loop_iteration 50 (fun pin : Z => pin =? 2)
    (Cpp.mkController Cpp.EW_GREEN 0 all_off)
  = Cpp.loop_iteration 50 (fun pin : Z => (pin =? 2) || (pin =? 6))
      (Cpp.mkController Cpp.EW_GREEN 0 all_off).
Proof.
  split; [reflexivity | split; [reflexivity | split; [reflexivity |]]].
  apply (asserted_reset_or_emergency_masks_sensors 50
           (fun pin : Z => pin =? 2)
           (fun pin : Z => (pin =? 2) || (pin =? 6))
           (Cpp.mkController Cpp.EW_GREEN 0 all_off));
    [reflexivity | reflexivity | right; reflexivity].
Defined.

(* ================================================================== *)
(** ** Green without cross demand *)
(* ================================================================== *)

(** X20. No bound on a green without cross demand: along any run of
    [loop] from [NS_GREEN] in which reset, emergency and east-west demand
    stay down, however long and however much time passes, the controller
    is never touched: state [NS_GREEN], start time and lamps remain as
    they were. In the hardware module, the timer once at zero, the
    registers stay [NS_GREEN] with the timer at zero over any number of
    clock edges without east-west demand. *)
Theorem ns_green_unbounded_without_demand :
  forall (ticks : list (Z * Cpp.Inputs)) (start : Z) (p : Cpp.Pins),
    no_cross_demand ticks ->
    Forall (fun c => c = Cpp.mkController Cpp.NS_GREEN start p)
           (Cpp.run ticks (Cpp.mkController Cpp.NS_GREEN start p)) /\
    (forall sensors : list Z,
       Forall (fun x => Verilog.ew_sensor_active x = false) sensors ->
       Forall (fun r => r = Verilog.mkRegs Verilog.NS_GREEN 0)
              (Verilog.edges false false sensors
                 (Verilog.mkRegs Verilog.NS_GREEN 0))).
Proof.
  intros ticks start p Hticks. split.
  - induction ticks as [| [now i] rest IH]; [constructor |].
    inversion Hticks as [| t l (Hr & He & Hw) Hrest]; subst.
    cbn [snd] in Hr, He, Hw. cbn [Cpp.run]. cbv zeta.
    assert (Hstep : Cpp.loop now i (Cpp.mkController Cpp.NS_GREEN start p)
                    = Cpp.mkController Cpp.NS_GREEN start p).
    { unfold Cpp.loop, Cpp.next_state.
      rewrite Hr, He, Hw. cbn [Cpp.current_state Cpp.stateStartTime].
      cbn [Z.eqb Pos.eqb Cpp.NS_GREEN Cpp.INIT].
      rewrite andb_false_r. reflexivity. }
    rewrite Hstep. constructor; [reflexivity | apply IH; exact Hrest].
  - induction sensors as [| x rest IH]; intros Hs; [constructor |].
    inversion Hs as [| y l Hx Hrest]; subst.
    cbn [Verilog.edges]. cbv zeta.
    assert (Hstep : Verilog.posedge false false x
                      (Verilog.mkRegs Verilog.NS_GREEN 0)
                    = Verilog.mkRegs Verilog.NS_GREEN 0).
    { unfold Verilog.posedge, Verilog.next_state.
      cbn [Verilog.current_state Verilog.state_timer].
      rewrite Hx. reflexivity. }
    rewrite Hstep. constructor; [reflexivity | apply IH; exact Hrest].
Qed.

Lemma ns_green_unbounded_without_demand_witness :
  no_cross_demand
    [ (20000, Cpp.mkInputs false false true false);
      (4000000000, Cpp.mkInputs false false false false) ] /\
  Forall (fun c => c = Cpp.mkController Cpp.NS_GREEN 0 all_off)
         (Cpp.run
            [ (20000, Cpp.mkInputs false false true false);
              (4000000000, Cpp.mkInputs false false false false) ]
            (Cpp.mkController Cpp.NS_GREEN 0 all_off)).
Proof.
  assert (H : no_cross_demand
    [ (20000, Cpp.mkInputs false false true false);
      (4000000000, Cpp.mkInputs false false false false) ]).
  { repeat constructor. }
  split; [exact H |].
  apply (ns_green_unbounded_without_demand _ 0 all_off H).
Defined.
